(** * Corpus loader and chat route of [app.py]: a shallow embedding

    The program is a Flask application.  At import time it scans the
    working directory for JSON files, renders each one to text
    ([load_and_parse_json], [load_survey_json]), joins the blocks into one
    context string ([load_context]) and serves one route ([chat]) that
    forwards a message to a completion client.

    Python values produced by [json.load] are embedded as the inductive
    type [json]; Python's [str] is a list of Unicode code points;
    exceptions and [print] are made explicit by a small monad that carries
    the emitted events next to a result that is either a value or a raised
    exception.

    What the embedding takes for granted: the operating system is POSIX
    (path separator [/]); the files do not change while the loader runs,
    so that reading a path twice gives the same result; [print] does not
    raise; the limits of the interpreter (recursion depth, memory) are
    never reached.  Where the path of the working directory is itself a
    glob pattern, what [glob] matches lies in other directories and is a
    component of the file system that the model takes as given. *)

From Stdlib Require Import Ascii String List ZArith NArith Bool Lia.
From Stdlib Require Import Permutation Sorted DecimalString.
Import ListNotations.

Set Warnings "-register-all".
Open Scope N_scope.
Open Scope list_scope.

(** ** Python strings *)

(** A character is a Unicode code point, a string a sequence of them. *)
Definition char := N.
Definition pystr := list char.

(** ASCII literals of the source, written as Rocq strings. *)
Definition lit (s : string) : pystr :=
  map N_of_ascii (list_ascii_of_string s).

(** The newline character. *)
Definition nl : pystr := [10].

Fixpoint str_eqb (a b : pystr) : bool :=
  match a, b with
  | [], [] => true
  | x :: a', y :: b' => (x =? y) && str_eqb a' b'
  | _, _ => false
  end.

(** [s.startswith(p)] *)
Fixpoint startswith (p s : pystr) : bool :=
  match p, s with
  | [], _ => true
  | _ :: _, [] => false
  | x :: p', y :: s' => (x =? y) && startswith p' s'
  end.

(** [s.endswith(p)] *)
Definition endswith (p s : pystr) : bool :=
  startswith (rev p) (rev s).

(** [sub in s] for two strings: [sub] occurs as a contiguous substring. *)
Fixpoint contains (sub s : pystr) : bool :=
  startswith sub s ||
  match s with
  | [] => false
  | _ :: s' => contains sub s'
  end.

(** [sep.join(parts)] *)
Fixpoint join (sep : pystr) (parts : list pystr) : pystr :=
  match parts with
  | [] => []
  | [x] => x
  | x :: rest => x ++ sep ++ join sep rest
  end.

(** Comparison of two strings by code points, as [sorted] uses it:
    [str_leb a b] is [a <= b]. *)
Fixpoint str_leb (a b : pystr) : bool :=
  match a, b with
  | [], _ => true
  | _ :: _, [] => false
  | x :: a', y :: b' =>
      if x <? y then true else if x =? y then str_leb a' b' else false
  end.

(** [str(n)] for an integer. *)
Definition str_of_Z (z : Z) : pystr :=
  lit (NilZero.string_of_int (Z.to_int z)).

(** One lowercase hexadecimal digit, and [format(n, '0<w>x')]. *)
Definition hex_digit (d : N) : char :=
  if d <? 10 then 48 + d else 87 + d.

Fixpoint hex (w : nat) (n : N) : pystr :=
  match w with
  | O => []
  | S w' => hex w' (n / 16) ++ [hex_digit (n mod 16)]
  end.

(** ** Values of [json.load] *)

(** A Python float is identified by the text [float.__repr__] prints for
    it; the program never computes with floats, it only prints them. *)
Record pyfloat := { float_repr : pystr }.

(** A [dict] keeps its keys in insertion order: an association list.  The
    keys of a parsed object are distinct; [lookup] below takes the first
    binding of a key. *)
Inductive json :=
| JNull
| JBool (b : bool)
| JInt (z : Z)
| JFloat (r : pyfloat)
| JStr (s : pystr)
| JList (l : list json)
| JDict (d : list (pystr * json)).

(** [key in d] and [d.get(key)] on a dict. *)
Fixpoint lookup (key : pystr) (d : list (pystr * json)) : option json :=
  match d with
  | [] => None
  | (k, v) :: d' => if str_eqb key k then Some v else lookup key d'
  end.

Definition has_key (key : pystr) (d : list (pystr * json)) : bool :=
  match lookup key d with Some _ => true | None => false end.

(** [d.get(key, default)] *)
Definition dict_get (d : list (pystr * json)) (key : pystr) (default : json) : json :=
  match lookup key d with Some v => v | None => default end.

(** Truth value of a Python object, as [not v] tests it. *)
Definition py_truthy (v : json) : bool :=
  match v with
  | JNull => false
  | JBool b => b
  | JInt z => negb (Z.eqb z 0)
  | JFloat r => negb (str_eqb (float_repr r) (lit "0.0") ||
                      str_eqb (float_repr r) (lit "-0.0"))
  | JStr s => match s with [] => false | _ => true end
  | JList l => match l with [] => false | _ => true end
  | JDict d => match d with [] => false | _ => true end
  end.

(** ** Exceptions, output and the completion service *)

(** An exception: its class name and [str(e)]. *)
Record exn := { exn_type : pystr; exn_msg : pystr }.

Inductive result (A : Type) :=
| Ok (a : A)
| Raise (e : exn).
Arguments Ok {A} a.
Arguments Raise {A} e.

(** What the program does to the outside: a line written by [print], or
    a call of [client.models.generate_content]. *)
Inductive event :=
| Printed (line : pystr)
| Generated (model system_instruction : pystr) (temperature : pyfloat)
            (contents : list json).

(** A computation: the events it emitted, in order, and how it ended. *)
Definition M (A : Type) : Type := (list event * result A)%type.

Definition ret {A} (a : A) : M A := ([], Ok a).

Definition lift {A} (r : result A) : M A := ([], r).

Definition bind {A B} (m : M A) (k : A -> M B) : M B :=
  match m with
  | (t, Ok a) => let (t', r) := k a in (t ++ t', r)
  | (t, Raise e) => (t, Raise e)
  end.

(** [try: m  except Exception as e: handler e] *)
Definition try_except {A} (m : M A) (handler : exn -> M A) : M A :=
  match m with
  | (t, Ok a) => (t, Ok a)
  | (t, Raise e) => let (t', r) := handler e in (t ++ t', r)
  end.

Definition print (line : pystr) : M unit := ([Printed line], Ok tt).

Notation "x <- m ;; k" := (bind m (fun x => k))
  (at level 61, m at next level, right associativity).
Notation "m ;;; k" := (bind m (fun _ => k))
  (at level 61, right associativity).

(** A [for] loop whose body updates one local variable. *)
Fixpoint for_each {A S} (xs : list A) (body : A -> S -> M S) (s : S) : M S :=
  match xs with
  | [] => ret s
  | x :: xs' => s' <- body x s ;; for_each xs' body s'
  end.

(** ** Operations on Python objects that may raise *)

Definition type_name (v : json) : pystr :=
  match v with
  | JNull => lit "NoneType"
  | JBool _ => lit "bool"
  | JInt _ => lit "int"
  | JFloat _ => lit "float"
  | JStr _ => lit "str"
  | JList _ => lit "list"
  | JDict _ => lit "dict"
  end.

Definition TypeError (msg : pystr) : exn :=
  {| exn_type := lit "TypeError"; exn_msg := msg |}.

Definition AttributeError (v : json) (attr : pystr) : exn :=
  {| exn_type := lit "AttributeError";
     exn_msg := lit "'" ++ type_name v ++ lit "' object has no attribute '"
                ++ attr ++ lit "'" |}.

(** [for entry in data]: the elements of a list, the keys of a dict, the
    characters of a string. *)
Definition py_iter (data : json) : result (list json) :=
  match data with
  | JList l => Ok l
  | JDict d => Ok (map (fun kv => JStr (fst kv)) d)
  | JStr s => Ok (map (fun c => JStr [c]) s)
  | _ => Raise (TypeError (lit "'" ++ type_name data ++
                           lit "' object is not iterable"))
  end.

(** [key in data] for a string [key]. *)
Definition py_in (key : pystr) (data : json) : result bool :=
  match data with
  | JDict d => Ok (has_key key d)
  | JList l =>
      Ok (existsb (fun x => match x with
                            | JStr s => str_eqb key s
                            | _ => false
                            end) l)
  | JStr s => Ok (contains key s)
  | _ => Raise (TypeError (lit "argument of type '" ++ type_name data ++
                           lit "' is not iterable"))
  end.

(** [v.items()] *)
Definition py_items (v : json) : result (list (pystr * json)) :=
  match v with
  | JDict d => Ok d
  | _ => Raise (AttributeError v (lit "items"))
  end.

(** [v.get(key)] *)
Definition py_get (v : json) (key : pystr) : result json :=
  match v with
  | JDict d => Ok (dict_get d key JNull)
  | _ => Raise (AttributeError v (lit "get"))
  end.

(** ** The file system *)

(** The state of the outside world the loader reads: the working
    directory, the names of its entries as the operating system lists
    them, and for each path what [open] followed by [json.load] gives:
    the parsed value, or the exception either of them raises.  The world
    does not change while the loader runs.

    [glob_magic] is what [glob.glob] returns for a pattern whose
    directory part has a glob metacharacter: the matches then come from
    whichever directories match that part, which need not include the
    working directory itself, and the record does not describe them
    otherwise. *)
Record filesystem := {
  cwd : pystr;
  listing : list pystr;
  content : pystr -> result json;
  glob_magic : pystr -> list pystr
}.

(** [os.path.join(a, b)] *)
Definition path_join (a b : pystr) : pystr :=
  if startswith (lit "/") b then b
  else match a with
       | [] => b
       | _ => if endswith (lit "/") a then a ++ b else a ++ lit "/" ++ b
       end.

(** [os.path.basename(p)]: what follows the last [/]. *)
Fixpoint basename (p : pystr) : pystr :=
  match p with
  | [] => []
  | c :: p' => if existsb (N.eqb 47) p' then basename p'
               else if c =? 47 then p' else p
  end.

(** [glob._ishidden] *)
Definition ishidden (name : pystr) : bool := startswith (lit ".") name.

(** [glob.has_magic]: the string has one of the characters [*], [?]
    and the opening square bracket. *)
Definition has_magic (s : pystr) : bool :=
  existsb (fun c => (c =? 42) || (c =? 63) || (c =? 91)) s.

(** [glob.glob(os.path.join(directory, "*.json"))].  When the path of
    the directory has no metacharacter, the result is the entries of the
    directory that are not hidden and match the pattern [*.json], each
    joined to the directory.  When it has one, [glob] reads the directory
    part as a pattern too and the result is what the file system gives
    for the whole pattern. *)
Definition glob_json (fs : filesystem) (directory : pystr) : list pystr :=
  if has_magic directory then
    glob_magic fs (path_join directory (lit "*.json"))
  else
    map (path_join directory)
        (filter (fun name => negb (ishidden name) && endswith (lit ".json") name)
                (listing fs)).

(** [sorted] on a list of strings. *)
Fixpoint insert (x : pystr) (l : list pystr) : list pystr :=
  match l with
  | [] => [x]
  | y :: l' => if str_leb x y then x :: l else y :: insert x l'
  end.

Definition sorted (l : list pystr) : list pystr := fold_right insert [] l.

(** [with open(path) as f: data = json.load(f)] *)
Definition read_json (fs : filesystem) (path : pystr) : M json :=
  lift (content fs path).

(** ** Unicode, [repr] and [str] *)

(** The part of the Unicode character database the program consults
    through [str.upper] and [repr]: the full uppercase mapping and the
    printable property, both for code points from 128 up (the ASCII range
    is written out below).  The database is not part of the repository
    and is taken as given. *)
Class unicode_db := {
  uc_upper : char -> pystr;
  uc_printable : char -> bool
}.

Section Model.
Context {ucd : unicode_db}.

(** [s.upper()]: every character is replaced by its full uppercase
    mapping; on ASCII that maps [a-z] to [A-Z]. *)
Definition upper_char (c : char) : pystr :=
  if c <? 128 then
    if (97 <=? c) && (c <=? 122) then [c - 32] else [c]
  else uc_upper c.

Definition upper (s : pystr) : pystr := flat_map upper_char s.

(** [repr] of one character of a string quoted with [q]. *)
Definition repr_char (q c : char) : pystr :=
  if (c =? q) || (c =? 92) then [92; c]
  else if c =? 9 then lit "\t"
  else if c =? 10 then lit "\n"
  else if c =? 13 then lit "\r"
  else if (c <? 32) || (c =? 127) then lit "\x" ++ hex 2 c
  else if c <? 127 then [c]
  else if uc_printable c then [c]
  else if c <=? 255 then lit "\x" ++ hex 2 c
  else if c <=? 65535 then lit "\u" ++ hex 4 c
  else lit "\U" ++ hex 8 c.

(** [repr(s)] for a string: single quotes, unless the string has a single
    quote and no double quote. *)
Definition repr_str (s : pystr) : pystr :=
  let q := if existsb (N.eqb 39) s && negb (existsb (N.eqb 34) s)
           then 34 else 39 in
  [q] ++ flat_map (repr_char q) s ++ [q].

Fixpoint py_repr (v : json) : pystr :=
  match v with
  | JNull => lit "None"
  | JBool true => lit "True"
  | JBool false => lit "False"
  | JInt z => str_of_Z z
  | JFloat r => float_repr r
  | JStr s => repr_str s
  | JList l => lit "[" ++ join (lit ", ") (map py_repr l) ++ lit "]"
  | JDict d =>
      lit "{" ++
      join (lit ", ")
           (map (fun kv => repr_str (fst kv) ++ lit ": " ++ py_repr (snd kv)) d)
      ++ lit "}"
  end.

(** [str(v)], which is what an f-string field [{v}] prints. *)
Definition py_str (v : json) : pystr :=
  match v with
  | JStr s => s
  | _ => py_repr v
  end.

(** [data[key]] for a string [key]. *)
Definition py_getitem (data : json) (key : pystr) : result json :=
  match data with
  | JDict d =>
      match lookup key d with
      | Some v => Ok v
      | None => Raise {| exn_type := lit "KeyError"; exn_msg := repr_str key |}
      end
  | JList _ =>
      Raise (TypeError (lit "list indices must be integers or slices, not str"))
  | JStr _ =>
      Raise (TypeError (lit "string indices must be integers, not 'str'"))
  | _ => Raise (TypeError (lit "'" ++ type_name data ++
                           lit "' object is not subscriptable"))
  end.

(** ** [json.dumps(v, indent=2)] *)

(** [json.encoder.py_encode_basestring_ascii]: the characters outside
    space..tilde, the backslash and the double quote are escaped; code
    points past the basic plane become a surrogate pair. *)
Definition json_escape_char (c : char) : pystr :=
  if c =? 92 then lit "\\"
  else if c =? 34 then [92; 34]
  else if c =? 8 then lit "\b"
  else if c =? 12 then lit "\f"
  else if c =? 10 then lit "\n"
  else if c =? 13 then lit "\r"
  else if c =? 9 then lit "\t"
  else if (32 <=? c) && (c <=? 126) then [c]
  else if c <? 65536 then lit "\u" ++ hex 4 c
  else
    let n := c - 65536 in
    lit "\u" ++ hex 4 (N.lor 55296 (N.land (N.shiftr n 10) 1023)) ++
    lit "\u" ++ hex 4 (N.lor 56320 (N.land n 1023)).

Definition encode_basestring_ascii (s : pystr) : pystr :=
  [34] ++ flat_map json_escape_char s ++ [34].

(** [json.encoder.floatstr] with [allow_nan] left at its default. *)
Definition floatstr (r : pyfloat) : pystr :=
  if str_eqb (float_repr r) (lit "nan") then lit "NaN"
  else if str_eqb (float_repr r) (lit "inf") then lit "Infinity"
  else if str_eqb (float_repr r) (lit "-inf") then lit "-Infinity"
  else float_repr r.

(** ['\n' + ' ' * 2 * level] *)
Definition newline_indent (level : nat) : pystr :=
  nl ++ concat (repeat (lit "  ") level).

(** The pure-Python encoder [_make_iterencode], which [indent=2] selects,
    with the default separators [(',', ': ')] of an indented dump. *)
Fixpoint iterencode (level : nat) (v : json) : pystr :=
  match v with
  | JNull => lit "null"
  | JBool true => lit "true"
  | JBool false => lit "false"
  | JInt z => str_of_Z z
  | JFloat r => floatstr r
  | JStr s => encode_basestring_ascii s
  | JList [] => lit "[]"
  | JList l =>
      lit "[" ++ newline_indent (S level) ++
      join (lit "," ++ newline_indent (S level)) (map (iterencode (S level)) l)
      ++ newline_indent level ++ lit "]"
  | JDict [] => lit "{}"
  | JDict d =>
      lit "{" ++ newline_indent (S level) ++
      join (lit "," ++ newline_indent (S level))
           (map (fun kv => encode_basestring_ascii (fst kv) ++ lit ": " ++
                           iterencode (S level) (snd kv)) d)
      ++ newline_indent level ++ lit "}"
  end.

Definition json_dumps (v : json) : pystr := iterencode 0 v.

(** ** The data loading functions *)

(** The part appended for one record of an interview file:
    [f"\n{speaker}:\nQ: {question}\nA: {answer}"]. *)
Definition interview_part (entry : list (pystr * json)) : pystr :=
  let speaker := dict_get entry (lit "speaker") (JStr (lit "Unknown")) in
  let question := dict_get entry (lit "question") (JStr []) in
  let answer := dict_get entry (lit "answer") (JStr []) in
  nl ++ py_str speaker ++ lit ":" ++ nl ++
  lit "Q: " ++ py_str question ++ nl ++
  lit "A: " ++ py_str answer.

Definition load_and_parse_json (fs : filesystem) (file_path : pystr) : M pystr :=
  try_except
    (data <- read_json fs file_path ;;
     let parts :=
       [lit "=== Interview File: " ++ basename file_path ++ lit " ==="] in
     entries <- lift (py_iter data) ;;
     let parts :=
       fold_left (fun parts entry =>
                    match entry with
                    | JDict d => parts ++ [interview_part d]
                    | _ => parts
                    end) entries parts in
     ret (join nl parts))
    (fun e =>
       print (lit "Error reading " ++ file_path ++ lit ": " ++ exn_msg e) ;;;
       ret []).

(** The two parts appended for one section of [survey_summary]. *)
Definition summary_step (parts : list pystr) (item : pystr * json) : list pystr :=
  let (section, values) := item in
  (parts ++ [nl ++ lit "[" ++ upper section ++ lit "]"]) ++ [json_dumps values].

(** The part appended for one entry of [free_text_insights]. *)
Definition insight_step (parts : list pystr) (item : pystr * json) : list pystr :=
  let (question, summary) := item in
  parts ++ [nl ++ lit "Q: " ++ question ++ nl ++
            lit "Summary: " ++ py_str summary].

Definition load_survey_json (fs : filesystem) (file_path : pystr) : M pystr :=
  try_except
    (data <- read_json fs file_path ;;
     let parts :=
       [lit "=== Survey Analytics File: " ++ basename file_path ++ lit " ==="] in
     has_summary <- lift (py_in (lit "survey_summary") data) ;;
     parts <-
       (if has_summary : bool then
          summary <- lift (py_getitem data (lit "survey_summary")) ;;
          items <- lift (py_items summary) ;;
          ret (fold_left summary_step items
                 (parts ++ [nl ++ lit "--- SURVEY SUMMARY ---"]))
        else ret parts) ;;
     has_insights <- lift (py_in (lit "free_text_insights") data) ;;
     parts <-
       (if has_insights : bool then
          insights <- lift (py_getitem data (lit "free_text_insights")) ;;
          items <- lift (py_items insights) ;;
          ret (fold_left insight_step items
                 (parts ++ [nl ++ lit "--- FREE TEXT INSIGHTS ---"]))
        else ret parts) ;;
     ret (join nl parts))
    (fun e =>
       print (lit "Error reading " ++ file_path ++ lit ": " ++ exn_msg e) ;;;
       ret []).

(** [isinstance(data, dict) and ("survey_summary" in data or
    "free_text_insights" in data)] *)
Definition is_survey (data : json) : bool :=
  match data with
  | JDict d => has_key (lit "survey_summary") d
               || has_key (lit "free_text_insights") d
  | _ => false
  end.

(** The test that makes the loop [continue]:
    ["package" in path or "lock" in path]. *)
Definition skipped (path : pystr) : bool :=
  contains (lit "package") path || contains (lit "lock") path.

(** The body of the loop of [load_context]: from the list [parts] before
    the iteration to the list after it. *)
Definition load_context_body (fs : filesystem) (path : pystr)
    (parts : list pystr) : M (list pystr) :=
  if skipped path then ret parts
  else
    try_except
      (data <- read_json fs path ;;
       match data with
       | JList _ =>
           block <- load_and_parse_json fs path ;;
           ret (parts ++ [block])
       | _ =>
           if is_survey data then
             block <- load_survey_json fs path ;;
             ret (parts ++ [block])
           else ret parts
       end)
      (fun e =>
         print (lit "Skipping file " ++ path ++ lit " due to load error: "
                ++ exn_msg e) ;;;
         ret parts).

(** [sorted(glob.glob(os.path.join(directory, "*.json")))] *)
Definition json_paths (fs : filesystem) : list pystr :=
  sorted (glob_json fs (cwd fs)).

Definition load_context (fs : filesystem) : M pystr :=
  let directory := cwd fs in
  let json_paths := json_paths fs in
  let parts := [] in
  print (lit "Scanning directory for JSON files: " ++ directory) ;;;
  parts <- for_each json_paths (load_context_body fs) parts ;;
  print (lit "Loaded " ++ str_of_Z (Z.of_nat (length parts)) ++
         lit " JSON context blocks.") ;;;
  ret (join (nl ++ nl) parts).

(** ** The system prompt *)

Definition MODEL_NAME : pystr := lit "gemini-1.5-flash".

(** The f-string [SYSTEM_INSTRUCTION], with the context loaded at start-up
    in the place of [{FULL_INTERVIEW_CONTEXT}]. *)
Definition SYSTEM_INSTRUCTION (FULL_INTERVIEW_CONTEXT : pystr) : pystr :=
  nl ++
  lit "You are an analytical assistant, built to answer questions that cafe entreprenuers have when starting a new cafe. " ++ nl ++
  lit "You DO NOT just repeat or summarize the context provided." ++ nl ++
  nl ++
  lit "Your goals:" ++ nl ++
  lit "1. Use the interview transcript contexts as background knowledge." ++ nl ++
  lit "2. Use the survey analytics as a customer perspective to cafe-going." ++ nl ++
  lit "3. Use both transcripts and survey to give holistic answers." ++ nl ++
  lit "4. Think beyond explicit text." ++ nl ++
  lit "5. Infer patterns, motives, insights, and deeper meanings." ++ nl ++
  lit "6. Provide thoughtful, evaluative, and analytical answers." ++ nl ++
  lit "7. If the user asks about something subjective (e.g., fonts, design decisions), use the context to think of an answer." ++ nl ++
  nl ++
  lit "Be concise, analytical, and insight-driven." ++ nl ++
  nl ++
  lit "--- INTERVIEW CONTEXT START ---" ++ nl ++
  FULL_INTERVIEW_CONTEXT ++ nl ++
  lit "--- INTERVIEW CONTEXT END ---" ++ nl.

(** ** The web route *)

(** The Gemini client as the route uses it.  The library is not part of
    the repository: the client is taken as a function of the model, the
    system instruction, the temperature and the contents that performs
    [generate_content] and then reads [response.text].  That property is
    an optional string: the generated text, or [None] when the reply has
    no text part.  Either step may raise. *)
Definition completion_client : Type :=
  pystr -> pystr -> pyfloat -> list json -> result (option pystr).

Definition generate_content (client : completion_client)
    (model system_instruction : pystr) (temperature : pyfloat)
    (contents : list json) : M (option pystr) :=
  ([Generated model system_instruction temperature contents],
   client model system_instruction temperature contents).

(** The JSON value of [response.text]: a string, or [null] for [None]. *)
Definition json_of_text (text : option pystr) : json :=
  match text with
  | Some s => JStr s
  | None => JNull
  end.

(** What a view function returns: [jsonify(body), status]. *)
Record http_response := { body : list (pystr * json); status : Z }.

(** The route [/chat].  [client] is the module's global of that name
    ([None] when the key was missing or the client failed to initialise),
    [request_json] is what evaluating [request.json] gives: the parsed
    body, or the exception Flask raises for a body that is not JSON. *)
Definition chat (client : option completion_client)
    (system_instruction : pystr) (request_json : result json)
    : M http_response :=
  match client with
  | None =>
      ret {| body :=
               [(lit "error",
                 JStr (lit "Backend Configuration Error: Google API Key is missing or invalid on the server."))];
             status := 500 |}
  | Some client =>
      try_except
        (user_data <- lift request_json ;;
         user_query <- lift (py_get user_data (lit "message")) ;;
         if negb (py_truthy user_query) then
           ret {| body := [(lit "error", JStr (lit "No message provided"))];
                  status := 400 |}
         else
           text <- generate_content client MODEL_NAME system_instruction
                     {| float_repr := lit "0.2" |} [user_query] ;;
           ret {| body := [(lit "response", json_of_text text)];
                  status := 200 |})
        (fun e =>
           print (lit "Error during chat generation: " ++ exn_msg e) ;;;
           ret {| body := [(lit "error", JStr (exn_msg e))]; status := 500 |})
  end.

End Model.

(** ** Module initialisation *)

(** What the module reads from its process when it is imported: the value
    of [GOOGLE_API_KEY] in [os.environ] once [load_dotenv] has run, and
    what the constructor [genai.Client(api_key=...)] does with a key: it
    gives a client or raises. *)
Record environment := {
  GOOGLE_API_KEY : option pystr;
  genai_Client : pystr -> result completion_client
}.

(** The block that initialises the global [client]: it starts as [None]
    and is assigned only when the key is truthy (present and not empty)
    and the constructor returns. *)
Definition init_client (env : environment) : M (option completion_client) :=
  let client := None in
  try_except
    (let api_key := GOOGLE_API_KEY env in
     match api_key with
     | None | Some [] =>
         print (lit "CRITICAL ERROR: 'GOOGLE_API_KEY' is missing. Chat will not work.") ;;;
         ret client
     | Some key =>
         new_client <- lift (genai_Client env key) ;;
         print (lit "Gemini Client initialized successfully.") ;;;
         ret (Some new_client)
     end)
    (fun e =>
       print (lit "Error initializing Gemini Client: " ++ exn_msg e) ;;;
       ret client).

(** What the statements of the module that call into its libraries do
    when the module is imported, outside the client block and the loader:
    the [import] statements of lines 1 to 8, [load_dotenv()],
    [Flask(__name__)], [CORS(app)], and the two registrations
    [@app.route(...)] of [home] and [chat].  The libraries are not part of
    the repository; each statement is taken as given, by whether it
    returns or raises. *)
Record module_setup := {
  imports : result unit;
  load_dotenv : result unit;
  Flask_app : result unit;
  CORS_app : result unit;
  route_home : result unit;
  route_chat : result unit
}.

(** The globals the routes read once the module is imported. *)
Record module_globals := {
  global_client : option completion_client;
  global_context : pystr;
  global_system_instruction : pystr
}.

Section ModuleImport.
Context {ucd : unicode_db}.

(** The statements of the module from the client block to the f-string
    (lines 17 to 132 of the source), in their order: the client, then
    [FULL_INTERVIEW_CONTEXT = load_context()], then
    [SYSTEM_INSTRUCTION]. *)
Definition initialise_globals (env : environment) (fs : filesystem)
    : M module_globals :=
  client <- init_client env ;;
  context <- load_context fs ;;
  ret {| global_client := client;
         global_context := context;
         global_system_instruction := SYSTEM_INSTRUCTION context |}.

(** The import of the module: every statement at its top level, in the
    order of the file.  None of the statements around the client block
    and the loader is inside a [try].  The last statement of the file is
    guarded by [__name__ == '__main__'] and does not run on import. *)
Definition import_module (setup : module_setup) (env : environment)
    (fs : filesystem) : M module_globals :=
  lift (imports setup) ;;;
  lift (load_dotenv setup) ;;;
  lift (Flask_app setup) ;;;
  lift (CORS_app setup) ;;;
  globals <- initialise_globals env fs ;;
  lift (route_home setup) ;;;
  lift (route_chat setup) ;;;
  ret globals.

End ModuleImport.

(** The route [/] . *)
Definition home : pystr := lit "Gemini RAG Server is Running!".

(** The route [/chat] as Flask calls it, on the globals of the module. *)
Definition chat_route (g : module_globals) (request_json : result json)
    : M http_response :=
  chat (global_client g) (global_system_instruction g) request_json.

(** * The vocabulary of the statements *)

(** The definitions below are not part of the program: they name what
    the specification talks about (the lines of a block, the files
    discovery lists, the block a file contributes) and the concrete
    directories and requests the statements are tried on. *)

(** [join] as the first part followed by every other part behind a
    separator. *)
Definition sep_each (sep : pystr) (parts : list pystr) : pystr :=
  flat_map (fun p => sep ++ p) parts.

(** The order [sorted] sorts by. *)
Definition str_le (a b : pystr) : Prop := str_leb a b = true.

Section Vocabulary.
Context {ucd : unicode_db}.

(** The text of one field of a record: the value when the key is
    present, the default when it is absent. *)
Definition field_text (entry : list (pystr * json)) (key default : pystr) : pystr :=
  match lookup key entry with
  | Some v => py_str v
  | None => default
  end.

(** The lines of an interview block as the specification lists them: the
    header, then for each record that is a mapping a blank line, the
    speaker line, the question line and the answer line. *)
Definition record_lines (entry : json) : list pystr :=
  match entry with
  | JDict d =>
      [ [];
        field_text d (lit "speaker") (lit "Unknown") ++ lit ":";
        lit "Q: " ++ field_text d (lit "question") [];
        lit "A: " ++ field_text d (lit "answer") [] ]
  | _ => []
  end.

Definition interview_lines (name : pystr) (records : list json) : list pystr :=
  (lit "=== Interview File: " ++ name ++ lit " ===")
  :: flat_map record_lines records.

Definition is_mapping (v : json) : bool :=
  match v with JDict _ => true | _ => false end.

Definition items_of (v : json) : list (pystr * json) :=
  match v with JDict d => d | _ => [] end.

(** The value under [key], when there is one, is a mapping. *)
Definition section_ok (key : pystr) (d : list (pystr * json)) : bool :=
  match lookup key d with
  | Some v => is_mapping v
  | None => true
  end.

(** The lines of a survey block as the specification lists them, each
    marker, section label and question preceded by the blank line that
    the leading newline of the source's parts produces. *)
Definition summary_lines (d : list (pystr * json)) : list pystr :=
  match lookup (lit "survey_summary") d with
  | Some v =>
      [ []; lit "--- SURVEY SUMMARY ---" ] ++
      flat_map (fun item =>
                  [ []; lit "[" ++ upper (fst item) ++ lit "]";
                    json_dumps (snd item) ])
               (items_of v)
  | None => []
  end.

Definition insight_lines (d : list (pystr * json)) : list pystr :=
  match lookup (lit "free_text_insights") d with
  | Some v =>
      [ []; lit "--- FREE TEXT INSIGHTS ---" ] ++
      flat_map (fun item =>
                  [ []; lit "Q: " ++ fst item;
                    lit "Summary: " ++ py_str (snd item) ])
               (items_of v)
  | None => []
  end.

Definition survey_lines (name : pystr) (d : list (pystr * json)) : list pystr :=
  (lit "=== Survey Analytics File: " ++ name ++ lit " ===")
  :: summary_lines d ++ insight_lines d.

(** The string a renderer returned. *)
Definition text_of (m : M pystr) : pystr :=
  match snd m with
  | Ok s => s
  | Raise _ => []
  end.

(** What one iteration prints, and the blocks it appends. *)
Definition file_events (fs : filesystem) (path : pystr) : list event :=
  fst (load_context_body fs path []).

Definition file_blocks (fs : filesystem) (path : pystr) : list pystr :=
  match snd (load_context_body fs path []) with
  | Ok parts => parts
  | Raise _ => []
  end.

(** The file at [path] loads and has one of the two shapes the loader
    renders. *)
Definition recognized (fs : filesystem) (path : pystr) : bool :=
  match content fs path with
  | Ok (JList _) => true
  | Ok data => is_survey data
  | Raise _ => false
  end.

(** The text the renderer chosen for [path] returns. *)
Definition rendering (fs : filesystem) (path : pystr) : pystr :=
  match content fs path with
  | Ok (JList _) => text_of (load_and_parse_json fs path)
  | _ => text_of (load_survey_json fs path)
  end.

(** The paths the loop does not skip, in the order it meets them. *)
Definition discover (fs : filesystem) : list pystr :=
  filter (fun path => negb (skipped path)) (json_paths fs).

(** [open] or [json.load] raises for the file at [path]. *)
Definition load_fails (fs : filesystem) (path : pystr) : bool :=
  match content fs path with
  | Ok _ => false
  | Raise _ => true
  end.

(** The file system with the content at one path replaced. *)
Definition with_content (fs : filesystem) (path : pystr) (r : result json)
    : filesystem :=
  {| cwd := cwd fs;
     listing := listing fs;
     content := fun p => if str_eqb p path then r else content fs p;
     glob_magic := glob_magic fs |}.

End Vocabulary.

(** ** Responses of the chat route *)

Definition ok_response (text : option pystr) : http_response :=
  {| body := [(lit "response", json_of_text text)]; status := 200 |}.

Definition error_response (msg : pystr) (code : Z) : http_response :=
  {| body := [(lit "error", JStr msg)]; status := code |}.

(** The [message] field of a request body, when it has one. *)
Definition message_field (v : json) : option json :=
  match v with
  | JDict d => lookup (lit "message") d
  | _ => None
  end.

Definition temperature : pyfloat := {| float_repr := lit "0.2" |}.

Definition config_error : pystr :=
  lit "Backend Configuration Error: Google API Key is missing or invalid on the server.".

Definition nonempty (s : pystr) : bool :=
  match s with [] => false | _ => true end.

(** Finds the shape of a response that has been computed. *)
Ltac answer :=
  do 2 eexists; split; [reflexivity|];
  first [ left; eexists; reflexivity
        | right; eexists; left; reflexivity
        | right; eexists; right; reflexivity ].

(** ** Concrete directories *)

(** A database with no entry.  The corpora below are ASCII, for which the
    database is not consulted. *)
Definition ascii_db : unicode_db :=
  {| uc_upper := fun c => [c]; uc_printable := fun _ => false |}.

(** The double quote. *)
Definition dq : pystr := [34].

Definition no_such_file : result json :=
  Raise {| exn_type := lit "FileNotFoundError";
           exn_msg := lit "[Errno 2] No such file or directory" |}.

Definition invalid_json : result json :=
  Raise {| exn_type := lit "JSONDecodeError";
           exn_msg := lit "Expecting value: line 1 column 1 (char 0)" |}.

(** A directory at [dir] with the given entries, each with what loading
    it gives, in a world with no other directory: a pattern in the
    directory part of a path matches nothing. *)
Definition directory (dir : pystr) (files : list (pystr * result json))
    : filesystem :=
  {| cwd := dir;
     listing := map fst files;
     content := fun p =>
       match find (fun f => str_eqb p (path_join dir (fst f))) files with
       | Some f => snd f
       | None => no_such_file
       end;
     glob_magic := fun _ => [] |}.

(** The two files of the end-to-end example of the specification. *)
Definition interview1 : json :=
  JList [JDict [(lit "speaker", JStr (lit "A"));
                (lit "question", JStr (lit "Why coffee?"));
                (lit "answer", JStr (lit "Passion."))]].

Definition survey : json :=
  JDict [(lit "survey_summary",
          JDict [(lit "age", JDict [(lit "18-25", JInt 10)])])].

Definition example_files : list (pystr * result json) :=
  [(lit "interview1.json", Ok interview1); (lit "survey.json", Ok survey)].

Definition interview1_block : pystr :=
  lit "=== Interview File: interview1.json ===" ++ nl ++
  nl ++
  lit "A:" ++ nl ++
  lit "Q: Why coffee?" ++ nl ++
  lit "A: Passion.".

Definition survey_block : pystr :=
  lit "=== Survey Analytics File: survey.json ===" ++ nl ++
  nl ++
  lit "--- SURVEY SUMMARY ---" ++ nl ++
  nl ++
  lit "[AGE]" ++ nl ++
  lit "{" ++ nl ++
  lit "  " ++ dq ++ lit "18-25" ++ dq ++ lit ": 10" ++ nl ++
  lit "}".

(** A survey file whose [survey_summary] is a list renders to the empty
    string, and the empty block is joined like any other. *)
Definition bad_survey : json := JDict [(lit "survey_summary", JList [])].

Definition with_bad_survey : filesystem :=
  directory (lit "/srv/app")
    [(lit "a.json", Ok (JList [])); (lit "b.json", Ok bad_survey)].

Definition with_broken_file : filesystem :=
  directory (lit "/srv/app")
    [(lit "broken.json", invalid_json); (lit "interview1.json", Ok interview1)].

(** ** Further vocabulary *)

(** The records of the file at [path], when it is a sequence. *)
Definition records_of (fs : filesystem) (path : pystr) : list json :=
  match content fs path with
  | Ok (JList records) => records
  | _ => []
  end.

(** The event is a call of the completion service. *)
Definition is_call (e : event) : bool :=
  match e with
  | Generated _ _ _ _ => true
  | Printed _ => false
  end.

(** The key is missing or empty: [not api_key]. *)
Definition key_missing (env : environment) : bool :=
  match GOOGLE_API_KEY env with
  | None | Some [] => true
  | Some _ => false
  end.

(** The constructor raises on the key of the environment. *)
Definition constructor_fails (env : environment) : bool :=
  match GOOGLE_API_KEY env with
  | Some key => match genai_Client env key with
                | Raise _ => true
                | Ok _ => false
                end
  | None => false
  end.

(** The header lines of the two renderers. *)
Definition interview_header (file_path : pystr) : pystr :=
  lit "=== Interview File: " ++ basename file_path ++ lit " ===".

Definition survey_header (file_path : pystr) : pystr :=
  lit "=== Survey Analytics File: " ++ basename file_path ++ lit " ===".

(** The line a renderer prints when it gives up on a file. *)
Definition error_reading (file_path : pystr) (e : exn) : event :=
  Printed (lit "Error reading " ++ file_path ++ lit ": " ++ exn_msg e).

(** The root is a number, a boolean or null. *)
Definition is_scalar (v : json) : bool :=
  match v with
  | JNull | JBool _ | JInt _ | JFloat _ => true
  | _ => false
  end.

(** The names [glob] keeps: not hidden, ending in [.json]. *)
Definition json_name (name : pystr) : bool :=
  negb (ishidden name) && endswith (lit ".json") name.


(** An environment with a key the constructor accepts, one without a
    key, and a client that answers every call with the same text. *)
Definition echo_client : completion_client :=
  fun _ _ _ _ => Ok (Some (lit "Serve filter coffee.")).

Definition env_with_key : environment :=
  {| GOOGLE_API_KEY := Some (lit "k-123");
     genai_Client := fun _ => Ok echo_client |}.

Definition env_without_key : environment :=
  {| GOOGLE_API_KEY := None;
     genai_Client := fun _ => Ok echo_client |}.

(** A request with a message, the directory of the example, the same
    directory listed in the opposite order, the same directory with a
    text file changed, and a directory of interviews only. *)
Definition chat_request : result json :=
  Ok (JDict [(lit "message", JStr (lit "What sells?"))]).

Definition example_directory : filesystem :=
  directory (lit "/srv/app") example_files.

Definition listed_backwards (fs : filesystem) : filesystem :=
  {| cwd := cwd fs;
     listing := rev (listing fs);
     content := content fs;
     glob_magic := glob_magic fs |}.

Definition interview_directory : filesystem :=
  directory (lit "/srv/app") [(lit "interview1.json", Ok interview1)].

(** A file with one record whose three fields are present and null, and
    a directory with an interview, a survey and a mapping that has
    neither key of a survey. *)
Definition null_directory : filesystem :=
  directory (lit "/srv/app")
    [(lit "nulls.json",
      Ok (JList [JDict [(lit "speaker", JNull); (lit "question", JNull);
                        (lit "answer", JNull)]]))].

Definition mixed_directory : filesystem :=
  directory (lit "/srv/app")
    (example_files ++ [(lit "other.json", Ok (JDict [(lit "k", JNull)]))]).

(** The exception of the first statement that raises, if one does; the
    statements of the module before its globals are initialised, and
    those after. *)
Fixpoint first_raise (steps : list (result unit)) : option exn :=
  match steps with
  | [] => None
  | Ok _ :: rest => first_raise rest
  | Raise e :: _ => Some e
  end.

Definition before_globals (setup : module_setup) : list (result unit) :=
  [imports setup; load_dotenv setup; Flask_app setup; CORS_app setup].

Definition after_globals (setup : module_setup) : list (result unit) :=
  [route_home setup; route_chat setup].

(** Libraries that load and register the routes. *)
Definition setup_ok : module_setup :=
  {| imports := Ok tt; load_dotenv := Ok tt; Flask_app := Ok tt;
     CORS_app := Ok tt; route_home := Ok tt; route_chat := Ok tt |}.

(** * Properties *)

(** ** Strings and lists *)

Lemma join_cons (sep x : pystr) (parts : list pystr) :
  join sep (x :: parts) = x ++ sep_each sep parts.
Proof.
  revert x. induction parts as [| y parts IH]; intro x.
  - unfold sep_each. simpl. now rewrite app_nil_r.
  - change (join sep (x :: y :: parts)) with (x ++ sep ++ join sep (y :: parts)).
    rewrite IH. unfold sep_each. simpl. now rewrite <- app_assoc.
Qed.

Lemma sep_each_app (sep : pystr) (l1 l2 : list pystr) :
  sep_each sep (l1 ++ l2) = sep_each sep l1 ++ sep_each sep l2.
Proof. unfold sep_each. apply flat_map_app. Qed.

Lemma sep_each_flat_map {A} (sep : pystr) (f : A -> list pystr) (l : list A) :
  sep_each sep (flat_map f l) = flat_map (fun a => sep_each sep (f a)) l.
Proof.
  induction l as [| a l IH]; simpl; [reflexivity|].
  now rewrite sep_each_app, IH.
Qed.

Lemma fold_left_append {A} (f : A -> list pystr) (l : list A) (acc : list pystr) :
  fold_left (fun parts a => parts ++ f a) l acc = acc ++ flat_map f l.
Proof.
  revert acc. induction l as [| a l IH]; intro acc; simpl.
  - now rewrite app_nil_r.
  - now rewrite IH, app_assoc.
Qed.

Lemma str_eqb_refl (a : pystr) : str_eqb a a = true.
Proof. induction a; simpl; [reflexivity|]. now rewrite N.eqb_refl. Qed.

Lemma str_eqb_eq (a b : pystr) : str_eqb a b = true <-> a = b.
Proof.
  split.
  - revert b. induction a as [| x a IH]; intros [| y b]; simpl; try discriminate; auto.
    intro H. apply andb_true_iff in H as [H1 H2].
    apply N.eqb_eq in H1. subst y. f_equal. auto.
  - intros ->. apply str_eqb_refl.
Qed.

(** ** The interview renderer *)

Section Rendering.
Context {ucd : unicode_db}.

Lemma dict_get_text (d : list (pystr * json)) (key default : pystr) :
  py_str (dict_get d key (JStr default)) = field_text d key default.
Proof. unfold dict_get, field_text. now destruct (lookup key d). Qed.

Lemma interview_loop (records : list json) (parts : list pystr) :
  fold_left (fun parts entry =>
               match entry with
               | JDict d => parts ++ [interview_part d]
               | _ => parts
               end) records parts
  = parts ++ flat_map (fun entry => match entry with
                                    | JDict d => [interview_part d]
                                    | _ => []
                                    end) records.
Proof.
  rewrite <- fold_left_append. revert parts.
  induction records as [| e records IH]; intro parts; [reflexivity|].
  simpl. rewrite <- IH. destruct e; try now rewrite app_nil_r.
  reflexivity.
Qed.

Lemma interview_part_lines (entry : json) :
  sep_each nl (match entry with
               | JDict d => [interview_part d]
               | _ => []
               end)
  = sep_each nl (record_lines entry).
Proof.
  destruct entry; try reflexivity.
  unfold record_lines, interview_part, sep_each. simpl flat_map.
  rewrite !dict_get_text. rewrite !app_nil_r.
  repeat rewrite <- app_assoc. reflexivity.
Qed.

Lemma load_and_parse_json_parts (fs : filesystem) (file_path : pystr)
    (records : list json) :
  content fs file_path = Ok (JList records) ->
  load_and_parse_json fs file_path
  = ([], Ok (join nl
               ((lit "=== Interview File: " ++ basename file_path ++ lit " ===")
                :: flat_map (fun entry => match entry with
                                          | JDict d => [interview_part d]
                                          | _ => []
                                          end) records))).
Proof.
  intro Hread.
  unfold load_and_parse_json, read_json, lift, try_except, bind, ret.
  rewrite Hread. cbn [py_iter app].
  now rewrite interview_loop.
Qed.

Lemma interview_parts_lines (name : pystr) (records : list json) :
  join nl
    ((lit "=== Interview File: " ++ name ++ lit " ===")
     :: flat_map (fun entry => match entry with
                               | JDict d => [interview_part d]
                               | _ => []
                               end) records)
  = join nl (interview_lines name records).
Proof.
  unfold interview_lines. rewrite !join_cons. f_equal.
  rewrite !sep_each_flat_map.
  apply flat_map_ext. intro e. apply interview_part_lines.
Qed.

(** C5. For a file whose JSON root is a sequence, [load_and_parse_json]
    returns, without raising and without logging, the header line
    [=== Interview File: <basename> ===] followed, for each element that
    is a mapping and in the order of the sequence, by a blank line, the
    line [<speaker>:], the line [Q: <question>] and the line
    [A: <answer>], all joined by newlines; a missing speaker reads
    [Unknown], a missing question or answer is empty, and elements that
    are not mappings leave no trace. *)
Theorem load_and_parse_json_interview (fs : filesystem) (file_path : pystr)
    (records : list json) :
  content fs file_path = Ok (JList records) ->
  load_and_parse_json fs file_path
  = ([], Ok (join nl (interview_lines (basename file_path) records))).
Proof.
  intro Hread.
  rewrite (load_and_parse_json_parts fs file_path records Hread).
  do 2 f_equal. apply interview_parts_lines.
Qed.

End Rendering.

(** ** The survey renderer *)

Section Survey.
Context {ucd : unicode_db}.

Lemma summary_loop (items : list (pystr * json)) (parts : list pystr) :
  fold_left summary_step items parts
  = parts ++ flat_map (fun item =>
                         [ nl ++ lit "[" ++ upper (fst item) ++ lit "]";
                           json_dumps (snd item) ]) items.
Proof.
  revert parts. induction items as [| [section values] items IH]; intro parts.
  - simpl. now rewrite app_nil_r.
  - simpl. rewrite IH. now rewrite <- !app_assoc.
Qed.

Lemma insight_loop (items : list (pystr * json)) (parts : list pystr) :
  fold_left insight_step items parts
  = parts ++ flat_map (fun item =>
                         [ nl ++ lit "Q: " ++ fst item ++ nl ++
                           lit "Summary: " ++ py_str (snd item) ]) items.
Proof.
  revert parts. induction items as [| [question summary] items IH]; intro parts.
  - simpl. now rewrite app_nil_r.
  - simpl. rewrite IH. now rewrite <- !app_assoc.
Qed.

Lemma summary_parts_lines (items : list (pystr * json)) :
  sep_each nl
    ([nl ++ lit "--- SURVEY SUMMARY ---"] ++
     flat_map (fun item =>
                 [ nl ++ lit "[" ++ upper (fst item) ++ lit "]";
                   json_dumps (snd item) ]) items)
  = sep_each nl
      ([ []; lit "--- SURVEY SUMMARY ---" ] ++
       flat_map (fun item =>
                   [ []; lit "[" ++ upper (fst item) ++ lit "]";
                     json_dumps (snd item) ]) items).
Proof.
  rewrite !sep_each_app, !sep_each_flat_map. f_equal.
Qed.

Lemma insight_parts_lines (items : list (pystr * json)) :
  sep_each nl
    ([nl ++ lit "--- FREE TEXT INSIGHTS ---"] ++
     flat_map (fun item =>
                 [ nl ++ lit "Q: " ++ fst item ++ nl ++
                   lit "Summary: " ++ py_str (snd item) ]) items)
  = sep_each nl
      ([ []; lit "--- FREE TEXT INSIGHTS ---" ] ++
       flat_map (fun item =>
                   [ []; lit "Q: " ++ fst item;
                     lit "Summary: " ++ py_str (snd item) ]) items).
Proof.
  rewrite !sep_each_app, !sep_each_flat_map.
  apply (f_equal2 (@app char)); [reflexivity|].
  apply flat_map_ext. intro item. unfold sep_each. simpl.
  now rewrite ?app_nil_r.
Qed.

Lemma load_survey_json_mappings (fs : filesystem) (file_path : pystr)
    (d : list (pystr * json)) :
  content fs file_path = Ok (JDict d) ->
  section_ok (lit "survey_summary") d = true ->
  section_ok (lit "free_text_insights") d = true ->
  load_survey_json fs file_path
  = ([], Ok (join nl (survey_lines (basename file_path) d))).
Proof.
  intros Hread Hs Hi.
  unfold load_survey_json, read_json, lift, try_except, bind, ret.
  rewrite Hread. cbn [py_in py_getitem].
  unfold survey_lines, summary_lines, insight_lines, section_ok, has_key in *.
  destruct (lookup (lit "survey_summary") d) as [[| | | | | |items1]|];
    try discriminate Hs;
    destruct (lookup (lit "free_text_insights") d) as [[| | | | | |items2]|];
    try discriminate Hi;
    cbn [py_items items_of app]; do 2 f_equal;
    rewrite ?summary_loop, ?insight_loop, <- ?app_assoc;
    cbn [app]; rewrite !join_cons; f_equal;
    rewrite ?app_nil_r.
  - match goal with
    | |- sep_each nl (?a :: ?l1 ++ ?l2) = sep_each nl (?b :: ?c :: ?l3 ++ ?l4) =>
        change (sep_each nl ((a :: l1) ++ l2)
                = sep_each nl ((b :: c :: l3) ++ l4))
    end.
    rewrite !sep_each_app.
    f_equal; [apply summary_parts_lines | apply insight_parts_lines].
  - apply summary_parts_lines.
  - apply insight_parts_lines.
Qed.

Lemma load_survey_json_not_mapping (fs : filesystem) (file_path : pystr)
    (d : list (pystr * json)) :
  content fs file_path = Ok (JDict d) ->
  section_ok (lit "survey_summary") d && section_ok (lit "free_text_insights") d
  = false ->
  exists v,
    is_mapping v = false /\
    load_survey_json fs file_path
    = ([Printed (lit "Error reading " ++ file_path ++ lit ": " ++
                 exn_msg (AttributeError v (lit "items")))],
       Ok []).
Proof.
  intros Hread Hbad.
  unfold load_survey_json, read_json, lift, try_except, bind, ret, print.
  rewrite Hread. cbn [py_in py_getitem].
  unfold section_ok, has_key in *.
  destruct (lookup (lit "survey_summary") d) as [v1|].
  - destruct (is_mapping v1) eqn:E1.
    + destruct v1; try discriminate E1.
      destruct (lookup (lit "free_text_insights") d) as [v2|];
        [|discriminate Hbad].
      exists v2. simpl in Hbad. split; [exact Hbad|].
      destruct v2; try discriminate Hbad; reflexivity.
    + exists v1. split; [exact E1|].
      destruct v1; try discriminate E1; reflexivity.
  - destruct (lookup (lit "free_text_insights") d) as [v2|];
      [|discriminate Hbad].
    exists v2. simpl in Hbad. split; [exact Hbad|].
    destruct v2; try discriminate Hbad; reflexivity.
Qed.

(** C6, as the code has it.  For a file whose JSON root is a mapping (so
    for every survey-shaped file) in which [survey_summary] and
    [free_text_insights], where present, are themselves mappings,
    [load_survey_json] returns, without raising and without logging, the
    header line [=== Survey Analytics File: <basename> ===]; then, when
    [survey_summary] is present, a blank line and the marker
    [--- SURVEY SUMMARY ---] and for each section in key order a blank
    line, [[<SECTION-UPPERCASED>]] and the indent-2 dump of its value;
    then, when [free_text_insights] is present, a blank line and the
    marker [--- FREE TEXT INSIGHTS ---] and for each question in key order
    a blank line, [Q: <question>] and [Summary: <value>]; all joined by
    newlines, the summary part first.  When one of the two is present and
    is not a mapping, the rendering is the empty string and the
    [AttributeError] is logged. *)
Theorem load_survey_json_survey (fs : filesystem) (file_path : pystr)
    (d : list (pystr * json)) :
  content fs file_path = Ok (JDict d) ->
  (section_ok (lit "survey_summary") d
   && section_ok (lit "free_text_insights") d = true ->
   load_survey_json fs file_path
   = ([], Ok (join nl (survey_lines (basename file_path) d))))
  /\
  (section_ok (lit "survey_summary") d
   && section_ok (lit "free_text_insights") d = false ->
   exists v,
     is_mapping v = false /\
     load_survey_json fs file_path
     = ([Printed (lit "Error reading " ++ file_path ++ lit ": " ++
                  exn_msg (AttributeError v (lit "items")))],
        Ok [])).
Proof.
  intro Hread. split.
  - intro Hok. apply andb_true_iff in Hok as [Hs Hi].
    now apply load_survey_json_mappings.
  - now apply load_survey_json_not_mapping.
Qed.

End Survey.

(** ** Fields that are present but null *)

Section NullFields.
Context {ucd : unicode_db}.

(** The block of an interview file, cut at one of its records. *)
Lemma interview_lines_split (name : pystr) (before after : list json)
    (entry : list (pystr * json)) :
  join nl (interview_lines name (before ++ JDict entry :: after))
  = join nl (interview_lines name before) ++ nl ++
    nl ++ field_text entry (lit "speaker") (lit "Unknown") ++ lit ":" ++ nl ++
    lit "Q: " ++ field_text entry (lit "question") [] ++ nl ++
    lit "A: " ++ field_text entry (lit "answer") [] ++
    sep_each nl (flat_map record_lines after).
Proof.
  unfold interview_lines. rewrite !join_cons, flat_map_app, sep_each_app.
  cbn [flat_map]. rewrite sep_each_app.
  unfold record_lines at 2. unfold sep_each at 2. cbn [flat_map].
  rewrite app_nil_r. repeat rewrite <- app_assoc. reflexivity.
Qed.

(** C9. The defaults of the interview renderer apply only to absent keys.
    Take a file whose root is a sequence and any record of it that is a
    mapping, with the records [before] and [after] it.  The text
    [load_and_parse_json] returns is the block of the records before,
    then a blank line and the three lines of the record, then the lines
    of the records after.  When [speaker] is present with JSON null the
    first of the three lines is [None:] and not [Unknown:]; when
    [question] or [answer] is present with JSON null the line is
    [Q: None] or [A: None] and not the bare prefix; [Unknown:] and the
    bare prefixes are what a record with none of the three keys gives. *)
Theorem load_and_parse_json_null_fields (fs : filesystem) (file_path : pystr)
    (before after : list json) (entry : list (pystr * json)) :
  content fs file_path = Ok (JList (before ++ JDict entry :: after)) ->
  (lookup (lit "speaker") entry = Some JNull ->
   load_and_parse_json fs file_path
   = ([], Ok (join nl (interview_lines (basename file_path) before) ++ nl ++
              nl ++ lit "None:" ++ nl ++
              lit "Q: " ++ field_text entry (lit "question") [] ++ nl ++
              lit "A: " ++ field_text entry (lit "answer") [] ++
              sep_each nl (flat_map record_lines after))))
  /\ (lookup (lit "question") entry = Some JNull ->
      load_and_parse_json fs file_path
      = ([], Ok (join nl (interview_lines (basename file_path) before) ++ nl ++
                 nl ++ field_text entry (lit "speaker") (lit "Unknown") ++
                 lit ":" ++ nl ++
                 lit "Q: None" ++ nl ++
                 lit "A: " ++ field_text entry (lit "answer") [] ++
                 sep_each nl (flat_map record_lines after))))
  /\ (lookup (lit "answer") entry = Some JNull ->
      load_and_parse_json fs file_path
      = ([], Ok (join nl (interview_lines (basename file_path) before) ++ nl ++
                 nl ++ field_text entry (lit "speaker") (lit "Unknown") ++
                 lit ":" ++ nl ++
                 lit "Q: " ++ field_text entry (lit "question") [] ++ nl ++
                 lit "A: None" ++
                 sep_each nl (flat_map record_lines after))))
  /\ (lookup (lit "speaker") entry = None ->
      lookup (lit "question") entry = None ->
      lookup (lit "answer") entry = None ->
      load_and_parse_json fs file_path
      = ([], Ok (join nl (interview_lines (basename file_path) before) ++ nl ++
                 nl ++ lit "Unknown:" ++ nl ++
                 lit "Q: " ++ nl ++
                 lit "A: " ++
                 sep_each nl (flat_map record_lines after)))).
Proof.
  intro Hread.
  rewrite (load_and_parse_json_parts fs file_path _ Hread).
  rewrite interview_parts_lines, interview_lines_split.
  repeat split; intros; unfold field_text;
    repeat match goal with H : lookup _ _ = _ |- _ => rewrite H; clear H end;
    reflexivity.
Qed.

End NullFields.

(** ** The loop of [load_context] *)

Section Loader.
Context {ucd : unicode_db}.

(** A [try] whose handler returns does not raise. *)
Lemma try_except_returns {A} (m : M A) (handler : exn -> M A) :
  (forall e, exists t a, handler e = (t, Ok a)) ->
  exists t a, try_except m handler = (t, Ok a).
Proof.
  intro Hh. destruct m as [t [a | e]]; simpl.
  - now exists t, a.
  - destruct (Hh e) as (t' & a & ->). now exists (t ++ t'), a.
Qed.

Lemma load_and_parse_json_returns (fs : filesystem) (file_path : pystr) :
  exists t s, load_and_parse_json fs file_path = (t, Ok s).
Proof.
  unfold load_and_parse_json. apply try_except_returns.
  intro e. now eexists _, _.
Qed.

Lemma load_survey_json_returns (fs : filesystem) (file_path : pystr) :
  exists t s, load_survey_json fs file_path = (t, Ok s).
Proof.
  unfold load_survey_json. apply try_except_returns.
  intro e. now eexists _, _.
Qed.

Lemma returns_text_of (m : M pystr) :
  (exists t s, m = (t, Ok s)) -> m = (fst m, Ok (text_of m)).
Proof. intros (t & s & ->). reflexivity. Qed.

Lemma load_context_body_appends (fs : filesystem) (path : pystr)
    (parts : list pystr) :
  load_context_body fs path parts
  = (file_events fs path, Ok (parts ++ file_blocks fs path)).
Proof.
  unfold file_events, file_blocks, load_context_body.
  destruct (skipped path); [simpl; now rewrite app_nil_r|].
  unfold read_json, lift, bind, try_except, ret, print.
  destruct (content fs path) as [data | e]; [|simpl; now rewrite app_nil_r].
  pose proof (returns_text_of _ (load_and_parse_json_returns fs path)) as Hi.
  pose proof (returns_text_of _ (load_survey_json_returns fs path)) as Hs.
  destruct data; cbn [is_survey];
    try (simpl; now rewrite app_nil_r);
    try (rewrite Hi; reflexivity).
  destruct (_ || _); [rewrite Hs; reflexivity | simpl; now rewrite app_nil_r].
Qed.

Lemma file_blocks_eq (fs : filesystem) (path : pystr) :
  file_blocks fs path
  = if negb (skipped path) && recognized fs path
    then [rendering fs path] else [].
Proof.
  unfold file_blocks, load_context_body, recognized, rendering.
  destruct (skipped path); [reflexivity|].
  unfold read_json, lift, bind, try_except, ret, print.
  destruct (content fs path) as [data | e]; [|reflexivity].
  pose proof (returns_text_of _ (load_and_parse_json_returns fs path)) as Hi.
  pose proof (returns_text_of _ (load_survey_json_returns fs path)) as Hs.
  destruct data; cbn [is_survey negb andb];
    try reflexivity; try (rewrite Hi; reflexivity).
  destruct (_ || _); [rewrite Hs; reflexivity | reflexivity].
Qed.

Lemma for_each_body (fs : filesystem) (paths : list pystr) (parts : list pystr) :
  for_each paths (load_context_body fs) parts
  = (flat_map (file_events fs) paths,
     Ok (parts ++ flat_map (file_blocks fs) paths)).
Proof.
  revert parts. induction paths as [| p paths IH]; intro parts.
  - simpl. unfold ret. now rewrite app_nil_r.
  - cbn [for_each flat_map]. rewrite load_context_body_appends.
    unfold bind. rewrite IH. now rewrite <- app_assoc.
Qed.

Lemma load_context_eq (fs : filesystem) :
  load_context fs
  = (Printed (lit "Scanning directory for JSON files: " ++ cwd fs)
     :: flat_map (file_events fs) (json_paths fs)
     ++ [Printed (lit "Loaded " ++
                  str_of_Z (Z.of_nat (length (flat_map (file_blocks fs)
                                                       (json_paths fs))))
                  ++ lit " JSON context blocks.")],
     Ok (join (nl ++ nl) (flat_map (file_blocks fs) (json_paths fs)))).
Proof.
  unfold load_context, bind, print, ret.
  rewrite for_each_body. cbn [app]. reflexivity.
Qed.

Lemma flat_map_blocks (fs : filesystem) (paths : list pystr) :
  flat_map (file_blocks fs) paths
  = map (rendering fs)
        (filter (recognized fs)
                (filter (fun path => negb (skipped path)) paths)).
Proof.
  induction paths as [| p paths IH]; [reflexivity|].
  cbn [flat_map filter]. rewrite IH, file_blocks_eq.
  destruct (skipped p); cbn [negb andb]; [reflexivity|].
  cbn [filter]. now destruct (recognized fs p).
Qed.

Lemma file_blocks_failed (fs : filesystem) (path : pystr) :
  load_fails fs path = true -> file_blocks fs path = [].
Proof.
  intro H. rewrite file_blocks_eq. unfold load_fails, recognized in *.
  destruct (content fs path); [discriminate|]. now rewrite andb_false_r.
Qed.

Lemma file_events_failed (fs : filesystem) (path : pystr) (e : exn) :
  skipped path = false ->
  content fs path = Raise e ->
  file_events fs path
  = [Printed (lit "Skipping file " ++ path ++ lit " due to load error: "
              ++ exn_msg e)].
Proof.
  intros Hs Hc. unfold file_events, load_context_body, read_json, lift.
  rewrite Hs, Hc. reflexivity.
Qed.

Lemma flat_map_blocks_loaded (fs : filesystem) (paths : list pystr) :
  flat_map (file_blocks fs) paths
  = flat_map (file_blocks fs)
      (filter (fun path => negb (load_fails fs path))
              (filter (fun path => negb (skipped path)) paths)).
Proof.
  induction paths as [| p paths IH]; [reflexivity|].
  cbn [flat_map filter]. rewrite IH.
  destruct (skipped p) eqn:Hs; cbn [negb].
  - rewrite file_blocks_eq, Hs. reflexivity.
  - cbn [filter]. destruct (load_fails fs p) eqn:Hf; cbn [negb].
    + now rewrite file_blocks_failed.
    + reflexivity.
Qed.

(** A mapping is a survey exactly when it has one of the two keys. *)
Lemma is_survey_keys (d : list (pystr * json)) :
  is_survey (JDict d) = true
  <-> (lookup (lit "survey_summary") d <> None
       \/ lookup (lit "free_text_insights") d <> None).
Proof.
  unfold is_survey, has_key.
  destruct (lookup (lit "survey_summary") d);
    destruct (lookup (lit "free_text_insights") d); cbn [orb];
    split; intro H; try reflexivity; try discriminate H;
    try (left; discriminate); try (right; discriminate).
  destruct H as [H | H]; now elim H.
Qed.

(** A file that fails to load is not recognized. *)
Lemma recognized_loaded (fs : filesystem) (paths : list pystr) :
  filter (recognized fs)
         (filter (fun path => negb (load_fails fs path)) paths)
  = filter (recognized fs) paths.
Proof.
  induction paths as [| p paths IH]; [reflexivity|].
  cbn [filter]. destruct (load_fails fs p) eqn:Hf; cbn [negb].
  - replace (recognized fs p) with false; [exact IH|].
    unfold recognized, load_fails in *. now destruct (content fs p).
  - cbn [filter]. now rewrite IH.
Qed.

(** What the two shapes contribute. *)
Lemma sequence_contributes (fs : filesystem) (path : pystr)
    (records : list json) :
  content fs path = Ok (JList records) ->
  recognized fs path = true
  /\ rendering fs path = join nl (interview_lines (basename path) records).
Proof.
  intro Hc. unfold recognized, rendering. rewrite Hc. split; [reflexivity|].
  rewrite (load_and_parse_json_parts fs path records Hc).
  apply interview_parts_lines.
Qed.

Lemma survey_contributes (fs : filesystem) (path : pystr)
    (d : list (pystr * json)) :
  content fs path = Ok (JDict d) ->
  lookup (lit "survey_summary") d <> None
  \/ lookup (lit "free_text_insights") d <> None ->
  recognized fs path = true
  /\ (section_ok (lit "survey_summary") d
      && section_ok (lit "free_text_insights") d = true ->
      rendering fs path = join nl (survey_lines (basename path) d))
  /\ (section_ok (lit "survey_summary") d
      && section_ok (lit "free_text_insights") d = false ->
      rendering fs path = []).
Proof.
  intros Hc Hkeys. unfold recognized, rendering. rewrite Hc.
  split; [now apply is_survey_keys|]. split; intro Hok.
  - apply andb_true_iff in Hok as [H1 H2].
    now rewrite (load_survey_json_mappings fs path d Hc H1 H2).
  - destruct (load_survey_json_not_mapping fs path d Hc Hok) as (v & _ & Hl).
    now rewrite Hl.
Qed.

(** C1. Building the context never raises.  A discovered file on which
    [open] or [json.load] raises is logged with its path and the message
    of the exception, and is left out of the context: the context is the
    blocks of the recognized files among the discovered files that did
    load, in order, joined by a blank line.  Among the files that load, a
    sequence is recognized and its block is its interview lines; a
    mapping with one of the two survey keys is recognized and its block
    is its survey lines, or the empty string when one of its sections is
    not a mapping.  When every discovered file fails to load the context
    is the empty string. *)
Theorem load_context_never_throws (fs : filesystem) :
  (exists context, snd (load_context fs) = Ok context)
  /\ (forall path e,
        In path (discover fs) ->
        content fs path = Raise e ->
        In (Printed (lit "Skipping file " ++ path ++
                     lit " due to load error: " ++ exn_msg e))
           (fst (load_context fs)))
  /\ snd (load_context fs)
     = Ok (join (nl ++ nl)
             (map (rendering fs)
                (filter (recognized fs)
                   (filter (fun path => negb (load_fails fs path))
                           (discover fs)))))
  /\ (forall path records,
        content fs path = Ok (JList records) ->
        recognized fs path = true
        /\ rendering fs path
           = join nl (interview_lines (basename path) records))
  /\ (forall path d,
        content fs path = Ok (JDict d) ->
        lookup (lit "survey_summary") d <> None
        \/ lookup (lit "free_text_insights") d <> None ->
        recognized fs path = true
        /\ (section_ok (lit "survey_summary") d
            && section_ok (lit "free_text_insights") d = true ->
            rendering fs path = join nl (survey_lines (basename path) d))
        /\ (section_ok (lit "survey_summary") d
            && section_ok (lit "free_text_insights") d = false ->
            rendering fs path = []))
  /\ ((forall path, In path (discover fs) -> load_fails fs path = true) ->
      snd (load_context fs) = Ok []).
Proof.
  assert (Hctx : snd (load_context fs)
                 = Ok (join (nl ++ nl)
                         (map (rendering fs)
                            (filter (recognized fs)
                               (filter (fun path => negb (load_fails fs path))
                                       (discover fs)))))).
  { rewrite load_context_eq. cbn [snd].
    rewrite flat_map_blocks, recognized_loaded. reflexivity. }
  split; [eauto|]. split; [|split; [exact Hctx|split; [|split]]].
  - intros path e Hin Hc. rewrite load_context_eq. cbn [fst].
    unfold discover in Hin.
    apply filter_In in Hin as [Hin Hs]. apply negb_true_iff in Hs.
    right. apply in_or_app. left. apply in_flat_map.
    exists path. split; [exact Hin|].
    rewrite (file_events_failed fs path e Hs Hc). now left.
  - apply sequence_contributes.
  - apply survey_contributes.
  - intro Hall. rewrite Hctx. clear Hctx.
    replace (filter (fun path => negb (load_fails fs path)) (discover fs))
      with (@nil pystr); [reflexivity|].
    symmetry. induction (discover fs) as [| p l IH]; [reflexivity|].
    cbn [filter]. rewrite (Hall p (or_introl eq_refl)). cbn [negb].
    apply IH. intros q Hq. apply Hall. now right.
Qed.

(** C2, as the code has it.  The context is the rendered blocks of the
    recognized files, in discovery order, joined by one blank line
    ([\n\n]); every recognized file has its block in the join, also when
    its rendering is the empty string. *)
Theorem load_context_joins_blocks (fs : filesystem) :
  snd (load_context fs)
  = Ok (join (nl ++ nl)
          (map (rendering fs) (filter (recognized fs) (discover fs)))).
Proof.
  rewrite load_context_eq. cbn [snd]. unfold discover.
  now rewrite flat_map_blocks.
Qed.

(** C4. For a file the loop does not skip and whose content parses, the
    root value decides, in this order.  A sequence is rendered as an
    interview transcript: the loop appends its interview lines.  A
    mapping with the key [survey_summary] or the key
    [free_text_insights] is rendered as a survey: the loop appends its
    survey lines, or, when the value under one of the two keys is not a
    mapping, the empty string, after the renderer has logged the
    [AttributeError].  Any other root, a mapping with neither key, a
    string, a number, a boolean or null, appends nothing and logs
    nothing. *)
Theorem load_context_body_classifies (fs : filesystem) (path : pystr)
    (parts : list pystr) (data : json) :
  skipped path = false ->
  content fs path = Ok data ->
  (forall records,
     data = JList records ->
     load_context_body fs path parts
     = ([], Ok (parts ++ [join nl (interview_lines (basename path) records)])))
  /\ (forall d,
        data = JDict d ->
        lookup (lit "survey_summary") d <> None
        \/ lookup (lit "free_text_insights") d <> None ->
        (section_ok (lit "survey_summary") d
         && section_ok (lit "free_text_insights") d = true ->
         load_context_body fs path parts
         = ([], Ok (parts ++ [join nl (survey_lines (basename path) d)])))
        /\ (section_ok (lit "survey_summary") d
            && section_ok (lit "free_text_insights") d = false ->
            exists v,
              is_mapping v = false /\
              load_context_body fs path parts
              = ([Printed (lit "Error reading " ++ path ++ lit ": " ++
                           exn_msg (AttributeError v (lit "items")))],
                 Ok (parts ++ [[]]))))
  /\ (forall d,
        data = JDict d ->
        lookup (lit "survey_summary") d = None ->
        lookup (lit "free_text_insights") d = None ->
        load_context_body fs path parts = ([], Ok parts))
  /\ (is_scalar data = true \/ (exists s, data = JStr s) ->
      load_context_body fs path parts = ([], Ok parts)).
Proof.
  intros Hs Hc.
  unfold load_context_body, read_json, lift, bind, try_except, ret.
  rewrite Hs, Hc.
  split; [|split; [|split]].
  - intros records ->.
    rewrite (load_and_parse_json_parts fs path records Hc), interview_parts_lines.
    reflexivity.
  - intros d -> Hkeys. apply is_survey_keys in Hkeys. rewrite Hkeys.
    split; intro Hok.
    + apply andb_true_iff in Hok as [H1 H2].
      rewrite (load_survey_json_mappings fs path d Hc H1 H2). reflexivity.
    + destruct (load_survey_json_not_mapping fs path d Hc Hok) as (v & Hv & Hl).
      exists v. split; [exact Hv|]. rewrite Hl. reflexivity.
  - intros d -> H1 H2. cbn [is_survey]. unfold has_key. rewrite H1, H2.
    reflexivity.
  - intros [Hd | [s ->]]; [|reflexivity].
    destruct data; try discriminate Hd; reflexivity.
Qed.

End Loader.

(** ** Order and substrings *)

Lemma str_leb_total (a b : pystr) : str_leb a b = false -> str_leb b a = true.
Proof.
  revert b. induction a as [| x a IH]; intros [| y b]; simpl; try discriminate; auto.
  destruct (x <? y) eqn:Hxy; [discriminate|].
  apply N.ltb_ge in Hxy.
  destruct (x =? y) eqn:Exy.
  - apply N.eqb_eq in Exy. subst y. rewrite N.ltb_irrefl, N.eqb_refl. apply IH.
  - intros _. apply N.eqb_neq in Exy.
    assert (H : (y <? x) = true) by (apply N.ltb_lt; lia). now rewrite H.
Qed.

Lemma str_leb_trans (a b c : pystr) :
  str_leb a b = true -> str_leb b c = true -> str_leb a c = true.
Proof.
  revert b c. induction a as [| x a IH]; intros [| y b] [| z c]; simpl;
    try discriminate; auto.
  destruct (x <? y) eqn:Hxy, (y <? z) eqn:Hyz, (x =? y) eqn:Exy, (y =? z) eqn:Eyz;
    try discriminate;
    repeat match goal with
           | H : (_ <? _) = true |- _ => apply N.ltb_lt in H
           | H : (_ <? _) = false |- _ => apply N.ltb_ge in H
           | H : (_ =? _) = true |- _ => apply N.eqb_eq in H
           | H : (_ =? _) = false |- _ => apply N.eqb_neq in H
           end;
    intros Hab Hbc;
    try (assert (Hxz : (x <? z) = true) by (apply N.ltb_lt; lia);
         now rewrite Hxz).
  subst. rewrite N.ltb_irrefl, N.eqb_refl. eauto.
Qed.

Lemma insert_perm (x : pystr) (l : list pystr) :
  Permutation (insert x l) (x :: l).
Proof.
  induction l as [| y l IH]; simpl; [reflexivity|].
  destruct (str_leb x y); [reflexivity|].
  rewrite IH. apply perm_swap.
Qed.

Lemma sorted_perm (l : list pystr) : Permutation (sorted l) l.
Proof.
  induction l as [| x l IH]; simpl; [constructor|].
  rewrite insert_perm. now constructor.
Qed.

Lemma insert_sorted (x : pystr) (l : list pystr) :
  StronglySorted str_le l -> StronglySorted str_le (insert x l).
Proof.
  induction 1 as [| y l Hl IH Hy]; simpl.
  - repeat constructor.
  - destruct (str_leb x y) eqn:Hxy.
    + constructor; [now constructor|].
      constructor; [exact Hxy|].
      eapply Forall_impl; [|exact Hy].
      intros z Hz. eapply str_leb_trans; eauto.
    + constructor; [exact IH|].
      eapply Permutation_Forall; [symmetry; apply insert_perm|].
      constructor; [now apply str_leb_total | exact Hy].
Qed.

Lemma sorted_sorted (l : list pystr) : StronglySorted str_le (sorted l).
Proof.
  induction l as [| x l IH]; simpl; [constructor | now apply insert_sorted].
Qed.

Lemma str_leb_antisym (a b : pystr) :
  str_leb a b = true -> str_leb b a = true -> a = b.
Proof.
  revert b. induction a as [| x a IH]; intros [| y b]; simpl;
    try discriminate; auto.
  rewrite (N.eqb_sym y x).
  destruct (x <? y) eqn:Hxy, (y <? x) eqn:Hyx, (x =? y) eqn:Exy;
    repeat match goal with
           | H : (_ <? _) = true |- _ => apply N.ltb_lt in H
           | H : (_ <? _) = false |- _ => apply N.ltb_ge in H
           | H : (_ =? _) = true |- _ => apply N.eqb_eq in H
           | H : (_ =? _) = false |- _ => apply N.eqb_neq in H
           end;
    try lia; try discriminate.
  subst y. intros H1 H2. f_equal. auto.
Qed.

(** A list has one sorted arrangement only, so every sorting algorithm,
    the one of [sorted] in Python too, returns what [sorted] returns
    here. *)
Lemma sorted_unique (l1 l2 : list pystr) :
  StronglySorted str_le l1 -> StronglySorted str_le l2 ->
  Permutation l1 l2 -> l1 = l2.
Proof.
  intro H1. revert l2. induction H1 as [| x l1 Hl1 IH Hx]; intros l2 H2 Hp.
  - now apply Permutation_nil in Hp.
  - destruct H2 as [| y l2 Hl2 Hy].
    + symmetry in Hp. now apply Permutation_nil in Hp.
    + assert (x = y).
      { rewrite Forall_forall in Hx, Hy.
        assert (Hxin : In x (y :: l2))
          by (eapply Permutation_in; [exact Hp | now left]).
        assert (Hyin : In y (x :: l1))
          by (eapply Permutation_in; [symmetry; exact Hp | now left]).
        destruct Hxin as [-> | Hxin]; [reflexivity|].
        destruct Hyin as [-> | Hyin]; [reflexivity|].
        apply str_leb_antisym; [apply Hx, Hyin | apply Hy, Hxin]. }
      subst y. f_equal. apply IH; [exact Hl2|].
      now apply Permutation_cons_inv in Hp.
Qed.

Lemma sorted_any_algorithm (l l' : list pystr) :
  Permutation l l' -> StronglySorted str_le l' -> l' = sorted l.
Proof.
  intros Hp Hs. apply sorted_unique; [exact Hs | apply sorted_sorted|].
  rewrite <- Hp. symmetry. apply sorted_perm.
Qed.

Lemma filter_sorted (f : pystr -> bool) (l : list pystr) :
  StronglySorted str_le l -> StronglySorted str_le (filter f l).
Proof.
  induction 1 as [| y l Hl IH Hy]; simpl; [constructor|].
  destruct (f y); [|exact IH].
  constructor; [exact IH|].
  apply Forall_forall. intros z Hz. apply filter_In in Hz as [Hz _].
  rewrite Forall_forall in Hy. now apply Hy.
Qed.

Lemma startswith_spec (p s : pystr) :
  startswith p s = true <-> exists r, s = p ++ r.
Proof.
  revert s. induction p as [| x p IH]; intro s; simpl.
  - split; eauto.
  - destruct s as [| y s].
    + split; [discriminate | intros (r & H); discriminate].
    + rewrite andb_true_iff, N.eqb_eq, IH. split.
      * intros (-> & r & ->). eauto.
      * intros (r & H). injection H as -> ->. eauto.
Qed.

Lemma contains_spec (sub s : pystr) :
  contains sub s = true <-> exists l r, s = l ++ sub ++ r.
Proof.
  induction s as [| y s IH].
  - simpl. rewrite orb_false_r, startswith_spec. split.
    + intros (r & H). now exists [], r.
    + intros (l & r & H). destruct l; [eauto | discriminate].
  - cbn [contains]. rewrite orb_true_iff, startswith_spec, IH. split.
    + intros [(r & H) | (l & r & H)].
      * now exists [], r.
      * exists (y :: l), r. now rewrite H.
    + intros (l & r & H). destruct l as [| z l].
      * left. eauto.
      * right. injection H as _ H. eauto.
Qed.

Lemma contains_app_r (sub pre s : pystr) :
  contains sub s = true -> contains sub (pre ++ s) = true.
Proof.
  rewrite !contains_spec. intros (l & r & ->).
  exists (pre ++ l), r. now rewrite app_assoc.
Qed.

Lemma contains_app_l (sub s post : pystr) :
  contains sub s = true -> contains sub (s ++ post) = true.
Proof.
  rewrite !contains_spec. intros (l & r & ->).
  exists l, (r ++ post). now rewrite <- !app_assoc.
Qed.

(** A substring that does not have the character [c] lies on one side
    of an occurrence of [c]. *)
Lemma contains_sep (sub a b : pystr) (c : char) :
  ~ In c sub -> sub <> [] ->
  contains sub (a ++ c :: b) = true ->
  contains sub a = true \/ contains sub b = true.
Proof.
  intros Hc Hne. rewrite !contains_spec. intros (l & r & H).
  apply app_eq_app in H as (m & [[Ha Hm] | [Hl Hm]]).
  - symmetry in Hm. apply app_eq_app in Hm as (n & [[Hs Hn] | [Hm Hr]]).
    + left. exists l, n. now subst.
    + destruct n as [| z n].
      * left. exists l, []. rewrite app_nil_r in Hm. subst. now rewrite app_nil_r.
      * injection Hr as <- _. exfalso. apply Hc. subst sub.
        apply in_or_app. right. now left.
  - destruct m as [| z m].
    + destruct sub as [| z sub]; [contradiction|].
      injection Hm as -> _. exfalso. apply Hc. now left.
    + injection Hm as _ ->. right. eauto.
Qed.

(** ** Discovery *)

Lemma endswith_spec (p s : pystr) :
  endswith p s = true <-> exists l, s = l ++ p.
Proof.
  unfold endswith. rewrite startswith_spec. split.
  - intros (r & H). exists (rev r).
    rewrite <- (rev_involutive s), H, rev_app_distr. now rewrite rev_involutive.
  - intros (l & ->). exists (rev l). apply rev_app_distr.
Qed.

(** The joined path ends with the name it was joined from. *)
Lemma path_join_suffix (a b : pystr) : exists pre, path_join a b = pre ++ b.
Proof.
  unfold path_join. destruct (startswith (lit "/") b); [now exists []|].
  destruct a as [| x a]; [now exists []|].
  destruct (endswith (lit "/") (x :: a)).
  - now exists (x :: a).
  - exists ((x :: a) ++ lit "/"). now rewrite <- app_assoc.
Qed.

Lemma skipped_suffix (pre name : pystr) :
  skipped name = true -> skipped (pre ++ name) = true.
Proof.
  unfold skipped. rewrite !orb_true_iff.
  intros [H | H]; [left | right]; now apply contains_app_r.
Qed.

Lemma skipped_path_join (a name : pystr) :
  skipped name = true -> skipped (path_join a name) = true.
Proof.
  intro H. destruct (path_join_suffix a name) as (pre & ->).
  now apply skipped_suffix.
Qed.

Lemma skipped_sep (a b : pystr) :
  skipped (a ++ 47 :: b) = true -> skipped a = true \/ skipped b = true.
Proof.
  unfold skipped. rewrite !orb_true_iff.
  intros [H | H]; apply contains_sep in H;
    try (cbv; intuition discriminate); try discriminate;
    destruct H as [H | H]; auto.
Qed.

(** A directory and a name that both pass the test give a path that
    passes it. *)
Lemma not_skipped_path_join (a name : pystr) :
  skipped a = false -> skipped name = false ->
  skipped (path_join a name) = false.
Proof.
  intros Ha Hn. unfold path_join.
  destruct (startswith (lit "/") name); [exact Hn|].
  destruct a as [| x a]; [exact Hn|].
  destruct (endswith (lit "/") (x :: a)) eqn:He; cbv iota.
  - apply endswith_spec in He as (l & He). rewrite He in *.
    change (lit "/") with [47] in *. rewrite <- app_assoc. cbn [app].
    match goal with |- ?t = false => destruct t eqn:Hs end; [|reflexivity].
    apply skipped_sep in Hs as [Hs | Hs]; [|congruence].
    unfold skipped in Hs, Ha. apply orb_true_iff in Hs.
    apply orb_false_iff in Ha as [Ha1 Ha2].
    destruct Hs as [Hs | Hs]; apply (contains_app_l _ _ [47]) in Hs; congruence.
  - change (lit "/" ++ name) with (47 :: name).
    match goal with |- ?t = false => destruct t eqn:Hs end; [|reflexivity].
    apply skipped_sep in Hs as [Hs | Hs]; congruence.
Qed.

Section Discovery.
Context {ucd : unicode_db}.

Lemma load_context_body_ext (fs fs' : filesystem) (path : pystr)
    (parts : list pystr) :
  skipped path = true \/ content fs path = content fs' path ->
  load_context_body fs path parts = load_context_body fs' path parts.
Proof.
  unfold load_context_body. destruct (skipped path); [reflexivity|].
  intros [H | H]; [discriminate|].
  unfold load_and_parse_json, load_survey_json, read_json.
  now rewrite H.
Qed.

Lemma for_each_ext (fs fs' : filesystem) (paths : list pystr)
    (parts : list pystr) :
  (forall p, In p paths -> skipped p = true \/ content fs p = content fs' p) ->
  for_each paths (load_context_body fs) parts
  = for_each paths (load_context_body fs') parts.
Proof.
  revert parts. induction paths as [| p paths IH]; intros parts H; [reflexivity|].
  cbn [for_each]. rewrite (load_context_body_ext fs fs' p parts).
  - unfold bind. destruct (load_context_body fs' p parts) as [t [parts' | e]];
      [|reflexivity].
    rewrite IH; [reflexivity|]. intros q Hq. apply H. now right.
  - apply H. now left.
Qed.

Lemma json_paths_In (fs : filesystem) (path : pystr) :
  has_magic (cwd fs) = false ->
  In path (json_paths fs) <->
  exists name,
    In name (listing fs) /\ ishidden name = false /\
    endswith (lit ".json") name = true /\ path = path_join (cwd fs) name.
Proof.
  intro Hplain. unfold json_paths, glob_json. rewrite Hplain.
  rewrite (Permutation_in' (eq_refl path) (sorted_perm _)).
  rewrite in_map_iff. split.
  - intros (name & <- & Hin). apply filter_In in Hin as [Hin Hf].
    apply andb_true_iff in Hf as [Hh He]. apply negb_true_iff in Hh.
    exists name. auto.
  - intros (name & Hin & Hh & He & ->). exists name. split; [reflexivity|].
    apply filter_In. split; [exact Hin|]. now rewrite Hh, He.
Qed.

Lemma discover_In (fs : filesystem) (path : pystr) :
  has_magic (cwd fs) = false ->
  In path (discover fs) <->
  exists name,
    In name (listing fs) /\ ishidden name = false /\
    endswith (lit ".json") name = true /\
    path = path_join (cwd fs) name /\ skipped path = false.
Proof.
  intro Hplain.
  unfold discover. rewrite filter_In, (json_paths_In fs path Hplain), negb_true_iff.
  split.
  - intros [(name & H1 & H2 & H3 & H4) H5]. exists name. auto.
  - intros (name & H1 & H2 & H3 & H4 & H5). split; [|exact H5].
    exists name. auto.
Qed.

Lemma not_discovered_by_name (fs : filesystem) (name : pystr) :
  contains (lit "package") name = true \/ contains (lit "lock") name = true ->
  ~ In (path_join (cwd fs) name) (discover fs).
Proof.
  intros Hc Hd. unfold discover in Hd. apply filter_In in Hd as [_ Hs].
  apply negb_true_iff in Hs.
  rewrite skipped_path_join in Hs; [discriminate|].
  unfold skipped. apply orb_true_iff. exact Hc.
Qed.

(** C3, as the code has it.  The discovered paths are sorted by code
    points, and a path whose name contains [package] or [lock] is never
    discovered.  When the path of the working directory has no glob
    metacharacter (no star, question mark or opening square bracket):
    each discovered path is an entry of the working directory, joined to
    the directory, whose name ends in [.json], does not begin with a dot
    and contains neither [package] nor [lock]; and when the path of the
    directory contains neither substring either, every entry whose name
    ends in [.json], does not begin with a dot and contains neither
    substring is discovered.  What [package-lock.json] holds has no
    effect on what the loader prints or returns. *)
Theorem discover_spec (fs : filesystem) :
  StronglySorted str_le (discover fs)
  /\ (has_magic (cwd fs) = false ->
      forall path,
        In path (discover fs) ->
        exists name,
          In name (listing fs) /\ path = path_join (cwd fs) name /\
          endswith (lit ".json") name = true /\ ishidden name = false /\
          contains (lit "package") name = false /\
          contains (lit "lock") name = false)
  /\ (forall name,
        contains (lit "package") name = true \/ contains (lit "lock") name = true ->
        ~ In (path_join (cwd fs) name) (discover fs))
  /\ (has_magic (cwd fs) = false ->
      contains (lit "package") (cwd fs) = false ->
      contains (lit "lock") (cwd fs) = false ->
      forall name,
        In name (listing fs) ->
        endswith (lit ".json") name = true -> ishidden name = false ->
        contains (lit "package") name = false ->
        contains (lit "lock") name = false ->
        In (path_join (cwd fs) name) (discover fs))
  /\ (forall r,
        load_context
          (with_content fs (path_join (cwd fs) (lit "package-lock.json")) r)
        = load_context fs).
Proof.
  split; [|split; [|split; [|split]]].
  - unfold discover. apply filter_sorted, sorted_sorted.
  - intros Hplain path Hd.
    apply (discover_In fs path Hplain) in Hd
      as (name & H1 & H2 & H3 & H4 & H5).
    exists name. repeat split; auto.
    + destruct (contains (lit "package") name) eqn:E; [|reflexivity].
      rewrite H4, skipped_path_join in H5; [discriminate|].
      unfold skipped. now rewrite E.
    + destruct (contains (lit "lock") name) eqn:E; [|reflexivity].
      rewrite H4, skipped_path_join in H5; [discriminate|].
      unfold skipped. rewrite E. apply orb_true_r.
  - apply not_discovered_by_name.
  - intros Hplain Hc1 Hc2 name H1 H2 H3 H4 H5.
    apply (discover_In fs _ Hplain). exists name.
    repeat split; auto. apply not_skipped_path_join; unfold skipped.
    + now rewrite Hc1, Hc2.
    + now rewrite H4, H5.
  - intro r. unfold load_context. cbn [cwd].
    change (json_paths (with_content fs _ r)) with (json_paths fs).
    rewrite (for_each_ext _ fs); [reflexivity|].
    intros p _. cbn [content with_content].
    destruct (str_eqb p _) eqn:E; [left | now right].
    apply str_eqb_eq in E. subst p. now apply skipped_path_join.
Qed.

End Discovery.

(** ** The chat route *)

(** C8, as the code has it.  Every call of the route returns, without
    raising, either a body with a [response] and status 200 or a body
    with an [error] string and status 400 or 500; the [response] is the
    text of the reply of the completion service, a string, or null when
    the reply has no text.  Without a client the answer is the
    configuration error with status 500, whatever the request.  With a
    client: a JSON object without a [message] field is answered with
    status 400; a body that is not a JSON object, or that Flask cannot
    parse, is answered with the message of the exception and status 500;
    and when the completion service raises, the answer is the message of
    its exception with status 500. *)
Theorem chat_responses (sys : pystr) :
  (forall client request_json,
      exists t r,
        chat client sys request_json = (t, Ok r) /\
        ((exists text, r = ok_response text) \/
         (exists msg, r = error_response msg 400 \/ r = error_response msg 500)))
  /\ (forall request_json,
        chat None sys request_json = ([], Ok (error_response config_error 500)))
  /\ (forall client d,
        lookup (lit "message") d = None ->
        chat (Some client) sys (Ok (JDict d))
        = ([], Ok (error_response (lit "No message provided") 400)))
  /\ (forall client v,
        is_mapping v = false ->
        chat (Some client) sys (Ok v)
        = ([Printed (lit "Error during chat generation: " ++
                     exn_msg (AttributeError v (lit "get")))],
           Ok (error_response (exn_msg (AttributeError v (lit "get"))) 500)))
  /\ (forall client e,
        chat (Some client) sys (Raise e)
        = ([Printed (lit "Error during chat generation: " ++ exn_msg e)],
           Ok (error_response (exn_msg e) 500)))
  /\ (forall client d user_query e,
        lookup (lit "message") d = Some user_query ->
        py_truthy user_query = true ->
        client MODEL_NAME sys temperature [user_query] = Raise e ->
        chat (Some client) sys (Ok (JDict d))
        = ([Generated MODEL_NAME sys temperature [user_query];
            Printed (lit "Error during chat generation: " ++ exn_msg e)],
           Ok (error_response (exn_msg e) 500)))
  /\ (forall client d user_query text,
        lookup (lit "message") d = Some user_query ->
        py_truthy user_query = true ->
        client MODEL_NAME sys temperature [user_query] = Ok text ->
        chat (Some client) sys (Ok (JDict d))
        = ([Generated MODEL_NAME sys temperature [user_query]],
           Ok (ok_response text))).
Proof.
  repeat split.
  - intros [client|] request_json; [|answer].
    unfold chat, lift, bind, try_except, ret, print, generate_content.
    destruct request_json as [v | e]; [|answer].
    destruct v; cbn [py_get]; try answer.
    match goal with
    | |- context [negb (py_truthy ?q)] => destruct (negb (py_truthy q))
    end; [answer|].
    match goal with
    | |- context [client ?m ?s ?t ?c] => destruct (client m s t c) as [text | e]
    end; answer.
  - intros client d H. unfold chat. cbn [lift bind py_get]. unfold dict_get. now rewrite H.
  - intros client v H. destruct v; try discriminate H; reflexivity.
  - intros client d q e H Ht Hc.
    unfold chat, generate_content. cbn [lift bind py_get]. unfold dict_get. rewrite H.
    cbn [lift bind try_except]. rewrite Ht. cbn [negb].
    fold temperature. now rewrite Hc.
  - intros client d q text H Ht Hc.
    unfold chat, generate_content. cbn [lift bind py_get]. unfold dict_get. rewrite H.
    cbn [lift bind try_except]. rewrite Ht. cbn [negb].
    fold temperature. now rewrite Hc.
Qed.

(** C10, as the code has it.  With a client configured, a request whose
    JSON object has a [message] field that is falsy (the empty string,
    null, [false], zero, an empty list or object) is answered exactly as
    one without the field: the body [{"error": "No message provided"}]
    with status 400, and the completion service is not called. *)
Theorem chat_falsy_message (client : completion_client) (sys : pystr)
    (d : list (pystr * json)) (user_query : json) :
  lookup (lit "message") d = Some user_query ->
  py_truthy user_query = false ->
  chat (Some client) sys (Ok (JDict d))
  = ([], Ok (error_response (lit "No message provided") 400))
  /\ (forall d',
        lookup (lit "message") d' = None ->
        chat (Some client) sys (Ok (JDict d))
        = chat (Some client) sys (Ok (JDict d'))).
Proof.
  intros H Ht.
  assert (E : chat (Some client) sys (Ok (JDict d))
              = ([], Ok (error_response (lit "No message provided") 400))).
  { unfold chat. cbn [lift bind py_get]. unfold dict_get. rewrite H.
    cbn [lift bind try_except]. now rewrite Ht. }
  split; [exact E|].
  intros d' H'. rewrite E. unfold chat. cbn [lift bind py_get]. unfold dict_get. now rewrite H'.
Qed.

(** * Concrete directories and requests *)

(** In a directory whose path has neither [package] nor [lock], the
    example gives the two blocks in the order of the file names, also
    next to a [package-lock.json], a hidden file and a file that is not
    JSON. *)
Example load_context_example :
  @load_context ascii_db (directory (lit "/srv/app") example_files)
  = ([Printed (lit "Scanning directory for JSON files: /srv/app");
      Printed (lit "Loaded 2 JSON context blocks.")],
     Ok (interview1_block ++ nl ++ nl ++ survey_block)).
Proof. vm_compute. reflexivity. Qed.

Example load_context_example_crowded :
  @load_context ascii_db
    (directory (lit "/srv/app")
       ((lit "survey.json", Ok survey)
        :: (lit "package-lock.json", Ok (JList [JDict []]))
        :: (lit ".hidden.json", Ok (JList []))
        :: (lit "broken.json", invalid_json)
        :: (lit "notes.txt", invalid_json)
        :: (lit "interview1.json", Ok interview1)
        :: (lit "other.json", Ok (JDict [(lit "k", JNull)]))
        :: nil))
  = ([Printed (lit "Scanning directory for JSON files: /srv/app");
      Printed (lit "Skipping file /srv/app/broken.json due to load error: Expecting value: line 1 column 1 (char 0)");
      Printed (lit "Loaded 2 JSON context blocks.")],
     Ok (interview1_block ++ nl ++ nl ++ survey_block)).
Proof. vm_compute. reflexivity. Qed.

(** C7. The same two files in a directory whose path contains [lock]:
    the test of the loop is made on the whole path, both files are
    skipped and the context is empty. *)
Theorem load_context_example_under_clock :
  @load_context ascii_db (directory (lit "/srv/clock") example_files)
  = ([Printed (lit "Scanning directory for JSON files: /srv/clock");
      Printed (lit "Loaded 0 JSON context blocks.")],
     Ok []).
Proof. vm_compute. reflexivity. Qed.

(** ** Where the specification and the code part *)

Example load_context_with_bad_survey :
  snd (@load_context ascii_db with_bad_survey)
  = Ok (lit "=== Interview File: a.json ===" ++ nl ++ nl).
Proof. vm_compute. reflexivity. Qed.

(** C2 as stated fails: the context is not the join of the non-empty
    blocks only. *)
Lemma empty_block_is_joined :
  ~ (forall (ucd : unicode_db) (fs : filesystem),
       snd (load_context fs)
       = Ok (join (nl ++ nl)
               (filter nonempty
                  (map (rendering fs)
                     (filter (recognized fs) (discover fs)))))).
Proof.
  intro H. specialize (H ascii_db with_bad_survey).
  vm_compute in H. discriminate H.
Qed.

(** C3 as stated fails: an entry with the [.json] extension whose name
    begins with a dot is not listed, though its name has neither
    [package] nor [lock]. *)
Lemma hidden_json_not_discovered :
  ~ (forall (fs : filesystem) (name : pystr),
       In name (listing fs) ->
       endswith (lit ".json") name = true ->
       contains (lit "package") name = false ->
       contains (lit "lock") name = false ->
       In (path_join (cwd fs) name) (discover fs)).
Proof.
  intro H.
  specialize (H (directory (lit "/srv/app") [(lit ".notes.json", Ok (JList []))])
                (lit ".notes.json")).
  vm_compute in H. apply H; auto.
Qed.

(** C6 as stated fails: for a survey-shaped file whose [survey_summary]
    is not a mapping the rendering does not even begin with the header. *)
Lemma survey_header_missing :
  ~ (forall (ucd : unicode_db) (fs : filesystem) (path : pystr)
            (d : list (pystr * json)),
       content fs path = Ok (JDict d) ->
       is_survey (JDict d) = true ->
       exists rest,
         snd (load_survey_json fs path)
         = Ok ((lit "=== Survey Analytics File: " ++ basename path ++ lit " ===")
               ++ rest)).
Proof.
  intro H.
  destruct (H ascii_db with_bad_survey (lit "/srv/app/b.json")
              [(lit "survey_summary", JList [])] eq_refl eq_refl)
    as [rest Hrest].
  vm_compute in Hrest. discriminate Hrest.
Qed.

(** C8 as stated fails: a request body that is a JSON array has no
    [message] field and is answered with status 500. *)
Lemma array_body_answered_500 :
  ~ (forall (client : option completion_client) (sys : pystr) (v : json),
       message_field v = None ->
       exists t r, chat client sys (Ok v) = (t, Ok r) /\ status r = 400%Z).
Proof.
  intro H.
  destruct (H (Some echo_client) [] (JList []) eq_refl)
    as (t & r & Hc & Hs).
  vm_compute in Hc. injection Hc as _ <-. discriminate Hs.
Qed.

(** C10 as stated fails: without a client the request with an empty
    message gets the configuration error and status 500. *)
Lemma falsy_message_without_client :
  ~ (forall (client : option completion_client) (sys : pystr)
            (d : list (pystr * json)) (v : json),
       lookup (lit "message") d = Some v ->
       py_truthy v = false ->
       chat client sys (Ok (JDict d))
       = ([], Ok (error_response (lit "No message provided") 400))).
Proof.
  intro H.
  specialize (H None [] [(lit "message", JStr [])] (JStr []) eq_refl eq_refl).
  vm_compute in H. discriminate H.
Qed.

(** ** The theorems at concrete inputs *)

Lemma load_context_never_throws_witness :
  snd (@load_context ascii_db with_broken_file) = Ok interview1_block
  /\ In (Printed (lit "Skipping file " ++ lit "/srv/app/broken.json" ++
                  lit " due to load error: " ++
                  lit "Expecting value: line 1 column 1 (char 0)"))
        (fst (@load_context ascii_db with_broken_file)).
Proof.
  split.
  - exact (proj1 (proj2 (proj2
             (@load_context_never_throws ascii_db with_broken_file)))).
  - apply (proj1 (proj2 (@load_context_never_throws ascii_db with_broken_file))
             (lit "/srv/app/broken.json")
             {| exn_type := lit "JSONDecodeError";
                exn_msg := lit "Expecting value: line 1 column 1 (char 0)" |}).
    + vm_compute. auto.
    + reflexivity.
Defined.

Lemma discover_spec_witness :
  In (lit "/srv/app/interview1.json")
     (discover (directory (lit "/srv/app") example_files)).
Proof.
  apply (proj1 (proj2 (proj2 (proj2
           (@discover_spec ascii_db (directory (lit "/srv/app") example_files)))))
         eq_refl eq_refl eq_refl (lit "interview1.json")).
  - vm_compute. auto.
  - reflexivity.
  - reflexivity.
  - reflexivity.
  - reflexivity.
Defined.

Lemma load_context_body_classifies_witness :
  @load_context_body ascii_db mixed_directory (lit "/srv/app/interview1.json") []
  = ([], Ok [interview1_block])
  /\ @load_context_body ascii_db mixed_directory (lit "/srv/app/survey.json") []
     = ([], Ok [survey_block])
  /\ @load_context_body ascii_db mixed_directory (lit "/srv/app/other.json") []
     = ([], Ok []).
Proof.
  split; [|split].
  - exact (proj1 (@load_context_body_classifies ascii_db mixed_directory
                    (lit "/srv/app/interview1.json") [] interview1
                    eq_refl eq_refl) _ eq_refl).
  - apply (proj1 (proj2 (@load_context_body_classifies ascii_db mixed_directory
                           (lit "/srv/app/survey.json") [] survey
                           eq_refl eq_refl))
             [(lit "survey_summary",
               JDict [(lit "age", JDict [(lit "18-25", JInt 10)])])] eq_refl).
    + left. vm_compute. discriminate.
    + reflexivity.
  - exact (proj1 (proj2 (proj2
             (@load_context_body_classifies ascii_db mixed_directory
                (lit "/srv/app/other.json") [] (JDict [(lit "k", JNull)])
                eq_refl eq_refl))) _ eq_refl eq_refl eq_refl).
Defined.

Lemma load_and_parse_json_interview_witness :
  @load_and_parse_json ascii_db (directory (lit "/srv/app") example_files)
    (lit "/srv/app/interview1.json")
  = ([], Ok interview1_block).
Proof.
  exact (@load_and_parse_json_interview ascii_db
           (directory (lit "/srv/app") example_files)
           (lit "/srv/app/interview1.json") _ eq_refl).
Defined.

Lemma load_survey_json_survey_witness :
  @load_survey_json ascii_db (directory (lit "/srv/app") example_files)
    (lit "/srv/app/survey.json")
  = ([], Ok survey_block).
Proof.
  exact (proj1 (@load_survey_json_survey ascii_db
                  (directory (lit "/srv/app") example_files)
                  (lit "/srv/app/survey.json") _ eq_refl) eq_refl).
Defined.

Lemma load_and_parse_json_null_fields_witness :
  @load_and_parse_json ascii_db null_directory (lit "/srv/app/nulls.json")
  = ([], Ok (lit "=== Interview File: nulls.json ===" ++ nl ++
             nl ++ lit "None:" ++ nl ++ lit "Q: None" ++ nl ++ lit "A: None")).
Proof.
  exact (proj1 (@load_and_parse_json_null_fields ascii_db null_directory
                  (lit "/srv/app/nulls.json") [] []
                  [(lit "speaker", JNull); (lit "question", JNull);
                   (lit "answer", JNull)] eq_refl) eq_refl).
Defined.

Lemma chat_falsy_message_witness :
  chat (Some (fun _ _ _ _ => Ok (Some (lit "hello")))) [] (Ok (JDict [(lit "message", JStr [])]))
  = ([], Ok (error_response (lit "No message provided") 400)).
Proof.
  exact (proj1 (chat_falsy_message (fun _ _ _ _ => Ok (Some (lit "hello"))) []
                  [(lit "message", JStr [])] (JStr []) eq_refl eq_refl)).
Defined.

(** ** The example in any directory whose path passes the test *)

Lemma str_eqb_app (pre a b : pystr) :
  str_eqb (pre ++ a) (pre ++ b) = str_eqb a b.
Proof.
  induction pre as [| x pre IH]; simpl; [reflexivity|].
  now rewrite N.eqb_refl.
Qed.

Lemma str_leb_app (pre a b : pystr) :
  str_leb (pre ++ a) (pre ++ b) = str_leb a b.
Proof.
  induction pre as [| x pre IH]; simpl; [reflexivity|].
  now rewrite N.ltb_irrefl, N.eqb_refl.
Qed.

Lemma basename_after_slash (l name : pystr) :
  existsb (N.eqb 47) name = false -> basename (l ++ 47 :: name) = name.
Proof.
  intro H. induction l as [| c l IH]; cbn [app basename].
  - now rewrite H.
  - rewrite existsb_app. cbn [existsb]. rewrite N.eqb_refl.
    now rewrite orb_true_r.
Qed.

Lemma basename_no_slash (name : pystr) :
  existsb (N.eqb 47) name = false -> basename name = name.
Proof.
  destruct name as [| c name]; [reflexivity|].
  cbn [existsb basename]. intro H. apply orb_false_iff in H as [Hc Hn].
  rewrite Hn. rewrite N.eqb_sym in Hc. now rewrite Hc.
Qed.

(** What [os.path.join] puts in front of a relative name depends on the
    directory only, and is empty or ends with the separator. *)
Lemma path_join_prefix (dir : pystr) :
  exists pre,
    (forall name, startswith (lit "/") name = false ->
                  path_join dir name = pre ++ name)
    /\ (forall name, existsb (N.eqb 47) name = false ->
                     basename (pre ++ name) = name).
Proof.
  destruct dir as [| x dir].
  - exists []. split.
    + intros name H. unfold path_join. now rewrite H.
    + intros name H. now apply basename_no_slash.
  - destruct (endswith (lit "/") (x :: dir)) eqn:He.
    + exists (x :: dir). split.
      * intros name H. unfold path_join. now rewrite H, He.
      * intros name H. apply endswith_spec in He as (l & ->).
        rewrite <- app_assoc. now apply basename_after_slash.
    + exists ((x :: dir) ++ lit "/"). split.
      * intros name H. unfold path_join. rewrite H, He.
        now rewrite <- app_assoc.
      * intros name H. rewrite <- app_assoc. now apply basename_after_slash.
Qed.

Section ExampleAnywhere.
Context {ucd : unicode_db}.

(** The end-to-end example of the specification holds in every directory
    whose own path has no glob metacharacter and contains neither
    [package] nor [lock]. *)
Lemma load_context_example_clean (dir : pystr) :
  has_magic dir = false ->
  skipped dir = false ->
  snd (load_context (directory dir example_files))
  = Ok (interview1_block ++ nl ++ nl ++ survey_block).
Proof.
  intros Hplain Hd. destruct (path_join_prefix dir) as (pre & Hj & Hb).
  set (i := lit "interview1.json"). set (s := lit "survey.json").
  assert (Hi : path_join dir i = pre ++ i) by (apply Hj; reflexivity).
  assert (Hs : path_join dir s = pre ++ s) by (apply Hj; reflexivity).
  assert (Hki : skipped (pre ++ i) = false)
    by (rewrite <- Hi; apply not_skipped_path_join; [exact Hd | reflexivity]).
  assert (Hks : skipped (pre ++ s) = false)
    by (rewrite <- Hs; apply not_skipped_path_join; [exact Hd | reflexivity]).
  set (fs := directory dir example_files).
  assert (Hci : content fs (pre ++ i) = Ok interview1).
  { unfold fs, directory, example_files. cbn [content find fst snd].
    fold i. now rewrite Hi, str_eqb_refl. }
  assert (Hcs : content fs (pre ++ s) = Ok survey).
  { unfold fs, directory, example_files. cbn [content find fst snd].
    fold i s. rewrite Hi, Hs, str_eqb_app, str_eqb_refl. reflexivity. }
  assert (Hpaths : discover fs = [pre ++ i; pre ++ s]).
  { unfold discover, json_paths, glob_json, fs, directory, example_files.
    cbn [cwd listing map fst]. rewrite Hplain. fold i s.
    change (filter _ [i; s]) with [i; s].
    cbn [map sorted fold_right insert]. rewrite Hi, Hs, str_leb_app.
    change (str_leb i s) with true. cbn [filter].
    now rewrite Hki, Hks. }
  rewrite load_context_eq. cbn [snd]. rewrite flat_map_blocks.
  fold (discover fs). rewrite Hpaths.
  unfold recognized, rendering. cbn [filter map]. rewrite Hci, Hcs.
  change (is_survey survey) with true. cbn [interview1 survey map].
  rewrite (load_and_parse_json_parts fs (pre ++ i) _ Hci), interview_parts_lines.
  rewrite (load_survey_json_mappings fs (pre ++ s) _ Hcs eq_refl eq_refl).
  unfold text_of. cbn [snd]. rewrite !Hb by reflexivity.
  rewrite Hci, Hcs. reflexivity.
Qed.

End ExampleAnywhere.

(** * Further properties *)

(** ** Import of the module *)

Lemma init_client_cases (env : environment) :
  exists line client,
    init_client env = ([Printed line], Ok client) /\
    (client = None <-> key_missing env = true \/ constructor_fails env = true).
Proof.
  unfold init_client, key_missing, constructor_fails.
  destruct (GOOGLE_API_KEY env) as [[| c key] |].
  - eexists _, None. split; [reflexivity|]. intuition.
  - unfold lift, bind, try_except, print, ret.
    destruct (genai_Client env (c :: key)) as [cl | e].
    + eexists _, (Some cl). split; [reflexivity|].
      split; [discriminate | intros [H | H]; discriminate H].
    + eexists _, None. split; [reflexivity|]. intuition.
  - eexists _, None. split; [reflexivity|]. intuition.
Qed.

Lemma init_client_ok (env : environment) (key : pystr) (c : completion_client) :
  GOOGLE_API_KEY env = Some key -> key <> [] ->
  genai_Client env key = Ok c ->
  init_client env
  = ([Printed (lit "Gemini Client initialized successfully.")], Ok (Some c)).
Proof.
  intros Hk Hne Hc. unfold init_client. rewrite Hk.
  destruct key as [| x key]; [contradiction|].
  unfold lift, bind, try_except, print, ret. now rewrite Hc.
Qed.

(** The six ways a call of [chat] ends. *)
Lemma chat_cases (client : option completion_client) (sys : pystr)
    (request_json : result json) :
  (client = None /\
   chat client sys request_json = ([], Ok (error_response config_error 500)))
  \/ (exists c e,
        client = Some c /\ request_json = Raise e /\
        chat client sys request_json
        = ([Printed (lit "Error during chat generation: " ++ exn_msg e)],
           Ok (error_response (exn_msg e) 500)))
  \/ (exists c v,
        client = Some c /\ request_json = Ok v /\ is_mapping v = false /\
        chat client sys request_json
        = ([Printed (lit "Error during chat generation: " ++
                     exn_msg (AttributeError v (lit "get")))],
           Ok (error_response (exn_msg (AttributeError v (lit "get"))) 500)))
  \/ (exists c d,
        client = Some c /\ request_json = Ok (JDict d) /\
        py_truthy (dict_get d (lit "message") JNull) = false /\
        chat client sys request_json
        = ([], Ok (error_response (lit "No message provided") 400)))
  \/ (exists c d text,
        client = Some c /\ request_json = Ok (JDict d) /\
        py_truthy (dict_get d (lit "message") JNull) = true /\
        c MODEL_NAME sys temperature [dict_get d (lit "message") JNull]
        = Ok text /\
        chat client sys request_json
        = ([Generated MODEL_NAME sys temperature
              [dict_get d (lit "message") JNull]],
           Ok (ok_response text)))
  \/ (exists c d e,
        client = Some c /\ request_json = Ok (JDict d) /\
        py_truthy (dict_get d (lit "message") JNull) = true /\
        c MODEL_NAME sys temperature [dict_get d (lit "message") JNull]
        = Raise e /\
        chat client sys request_json
        = ([Generated MODEL_NAME sys temperature
              [dict_get d (lit "message") JNull];
            Printed (lit "Error during chat generation: " ++ exn_msg e)],
           Ok (error_response (exn_msg e) 500))).
Proof.
  destruct client as [c |]; [|left; now split].
  right. destruct request_json as [v | e]; [|left; now exists c, e].
  right. destruct (is_mapping v) eqn:Hm.
  - right. destruct v as [| | | | | | d]; try discriminate Hm.
    unfold chat, generate_content. cbn [lift bind py_get]. fold temperature.
    destruct (py_truthy (dict_get d (lit "message") JNull)) eqn:Ht; cbn [negb].
    + right.
      destruct (c MODEL_NAME sys temperature [dict_get d (lit "message") JNull])
        as [text | e] eqn:Hc.
      * left. exists c, d, text. repeat split; auto.
      * right. exists c, d, e. repeat split; auto.
    + left. exists c, d. repeat split; auto.
  - left. exists c, v. repeat split; auto.
    destruct v; try discriminate Hm; reflexivity.
Qed.


Section ImportFacts.
Context {ucd : unicode_db}.

Lemma initialise_globals_eq (env : environment) (fs : filesystem)
    (t : list event) (client : option completion_client) :
  init_client env = (t, Ok client) ->
  initialise_globals env fs
  = (t ++ fst (load_context fs),
     Ok {| global_client := client;
           global_context :=
             join (nl ++ nl)
               (map (rendering fs) (filter (recognized fs) (discover fs)));
           global_system_instruction :=
             SYSTEM_INSTRUCTION
               (join (nl ++ nl)
                  (map (rendering fs) (filter (recognized fs) (discover fs))))
        |}).
Proof.
  intro H. unfold initialise_globals, bind, ret. rewrite H, load_context_eq.
  cbn [fst]. rewrite flat_map_blocks. fold (discover fs).
  now rewrite app_nil_r.
Qed.

Lemma load_context_value (fs : filesystem) :
  snd (load_context fs)
  = Ok (join (nl ++ nl)
          (map (rendering fs) (filter (recognized fs) (discover fs)))).
Proof.
  rewrite load_context_eq. cbn [snd]. rewrite flat_map_blocks.
  reflexivity.
Qed.

(** X1. What importing the module does, for every environment, working
    directory and behaviour of the libraries.  If one of the statements
    before the client block raises (an [import], [load_dotenv()],
    [Flask(__name__)], [CORS(app)], in that order), the import raises
    that exception and nothing has been printed.  Otherwise the client
    block and the loader run and neither makes the import fail: the
    import prints the line of the client block followed by the log of the
    loader, and then raises only if the registration of a route raises.
    When it returns, the global client is [None] exactly when the key is
    missing or empty or the constructor raised; the global context is the
    join of the blocks of the recognized files, and the system
    instruction is the template filled with that join. *)
Theorem import_module_outcome (setup : module_setup) (env : environment)
    (fs : filesystem) :
  exists line client,
    (client = None <->
     key_missing env = true \/ constructor_fails env = true) /\
    import_module setup env fs
    = match first_raise (before_globals setup) with
      | Some e => ([], Raise e)
      | None =>
          (Printed line :: fst (load_context fs),
           match first_raise (after_globals setup) with
           | Some e => Raise e
           | None =>
               Ok {| global_client := client;
                     global_context :=
                       join (nl ++ nl)
                         (map (rendering fs)
                            (filter (recognized fs) (discover fs)));
                     global_system_instruction :=
                       SYSTEM_INSTRUCTION
                         (join (nl ++ nl)
                            (map (rendering fs)
                               (filter (recognized fs) (discover fs)))) |}
           end)
      end.
Proof.
  destruct (init_client_cases env) as (line & client & Hinit & Hnone).
  exists line, client. split; [exact Hnone|].
  unfold import_module, before_globals, after_globals.
  rewrite (initialise_globals_eq env fs _ _ Hinit).
  destruct setup as [[[] | e1] [[] | e2] [[] | e3] [[] | e4] [[] | e5] [[] | e6]];
    cbn [first_raise imports load_dotenv Flask_app CORS_app route_home
         route_chat lift bind ret app];
    try reflexivity; now rewrite ?app_nil_r.
Qed.

(** X2. When the key is missing or empty, or the constructor raised,
    every request to [/chat] is answered with the configuration error and
    status 500, and nothing is printed and the completion service is not
    called. *)
Theorem chat_route_without_client (env : environment) (fs : filesystem)
    (request_json : result json) :
  key_missing env = true \/ constructor_fails env = true ->
  exists log g,
    initialise_globals env fs = (log, Ok g) /\
    chat_route g request_json = ([], Ok (error_response config_error 500)).
Proof.
  intro H.
  destruct (init_client_cases env) as (line & client & Hinit & Hnone).
  rewrite (initialise_globals_eq env fs _ _ Hinit).
  eexists _, _. split; [reflexivity|].
  apply Hnone in H. subst client. reflexivity.
Qed.

(** X3. When the key is set and the constructor returned a client, a
    request whose [message] is truthy makes one call of the completion
    service: with the model [gemini-1.5-flash], the temperature 0.2, the
    message as the only content, and the system instruction filled with
    the blocks of the recognized files of the working directory as they
    were at import. *)
Theorem chat_route_sends_context (env : environment) (fs : filesystem)
    (key : pystr) (c : completion_client) (d : list (pystr * json))
    (user_query : json) :
  GOOGLE_API_KEY env = Some key -> key <> [] ->
  genai_Client env key = Ok c ->
  lookup (lit "message") d = Some user_query ->
  py_truthy user_query = true ->
  exists log g rest,
    initialise_globals env fs = (log, Ok g) /\
    fst (chat_route g (Ok (JDict d)))
    = Generated (lit "gemini-1.5-flash")
        (SYSTEM_INSTRUCTION
           (join (nl ++ nl)
              (map (rendering fs) (filter (recognized fs) (discover fs)))))
        {| float_repr := lit "0.2" |} [user_query]
      :: rest /\
    existsb is_call rest = false.
Proof.
  intros Hk Hne Hc Hm Ht.
  rewrite (initialise_globals_eq env fs _ _ (init_client_ok env key c Hk Hne Hc)).
  set (sys := SYSTEM_INSTRUCTION _).
  assert (Hq : dict_get d (lit "message") JNull = user_query)
    by (unfold dict_get; now rewrite Hm).
  assert (Hev : exists rest,
             fst (chat (Some c) sys (Ok (JDict d)))
             = Generated MODEL_NAME sys temperature [user_query] :: rest /\
             existsb is_call rest = false).
  { destruct (chat_cases (Some c) sys (Ok (JDict d))) as
      [ [H _]
      | [ (? & ? & _ & H & _)
        | [ (? & v & _ & Hv & Hmap & _)
          | [ (? & d' & _ & Hd & Hf & _)
            | [ (c' & d' & text & Hcl & Hd & _ & _ & H)
              | (c' & d' & e & Hcl & Hd & _ & _ & H) ] ] ] ] ];
      try discriminate.
    - injection Hv as <-. discriminate Hmap.
    - injection Hd as <-. rewrite Hq, Ht in Hf. discriminate Hf.
    - injection Hd as <-. rewrite Hq in H. rewrite H. now exists [].
    - injection Hd as <-. rewrite Hq in H. rewrite H. now eexists [_]. }
  destruct Hev as (rest & Hev & Hrest).
  eexists _, _, rest. split; [reflexivity|]. split; [exact Hev | exact Hrest].
Qed.

End ImportFacts.

(** ** Calls and statuses of the chat route *)

(** X4. A call of [chat] calls the completion service at most once, and
    it does so exactly when a client is configured and the body is a JSON
    object whose [message] is truthy: never for a missing client, an
    unparsable body, a body that is not an object, or a missing or falsy
    message, and never a second time after the service failed. *)
Theorem chat_calls_service (client : option completion_client) (sys : pystr)
    (request_json : result json) :
  (length (filter is_call (fst (chat client sys request_json))) <= 1)%nat
  /\ (existsb is_call (fst (chat client sys request_json)) = true <->
      exists c d user_query,
        client = Some c /\ request_json = Ok (JDict d) /\
        lookup (lit "message") d = Some user_query /\
        py_truthy user_query = true).
Proof.
  assert (Hget : forall d,
             py_truthy (dict_get d (lit "message") JNull) = true ->
             exists q, lookup (lit "message") d = Some q /\ py_truthy q = true).
  { intros d. unfold dict_get.
    destruct (lookup (lit "message") d) as [q |]; [eauto | discriminate]. }
  destruct (chat_cases client sys request_json) as
    [ [Hcl H]
    | [ (c & e & Hcl & Hr & H)
      | [ (c & v & Hcl & Hr & Hmap & H)
        | [ (c & d & Hcl & Hr & Hf & H)
          | [ (c & d & text & Hcl & Hr & Ht & _ & H)
            | (c & d & e & Hcl & Hr & Ht & _ & H) ] ] ] ] ];
    rewrite H; cbn [fst filter is_call existsb length orb]; (split; [lia|]).
  - split; [discriminate|]. intros (c & _ & _ & Hc & _). congruence.
  - split; [discriminate|]. intros (_ & d & _ & _ & Hd & _). congruence.
  - split; [discriminate|]. intros (_ & d & _ & _ & Hd & _).
    rewrite Hr in Hd. injection Hd as ->. discriminate Hmap.
  - split; [discriminate|]. intros (_ & d' & q & _ & Hd & Hl & Hq).
    rewrite Hr in Hd. injection Hd as <-.
    unfold dict_get in Hf. rewrite Hl in Hf. congruence.
  - split; [|reflexivity]. intros _.
    destruct (Hget d Ht) as (q & Hl & Hq). now exists c, d, q.
  - split; [|reflexivity]. intros _.
    destruct (Hget d Ht) as (q & Hl & Hq). now exists c, d, q.
Qed.

(** X5. What the status of the answer of [chat] tells: it is 200 exactly
    when the completion service was called and returned a reply, whose
    text, or null when it has none, is then the [response] of the body;
    it is 400 exactly when a client is
    configured and the body is a JSON object whose [message] is missing
    or falsy; in every other case it is 500. *)
Theorem chat_status_meaning (client : option completion_client) (sys : pystr)
    (request_json : result json) (t : list event) (r : http_response) :
  chat client sys request_json = (t, Ok r) ->
  (status r = 200%Z <->
   exists c d text,
     client = Some c /\ request_json = Ok (JDict d) /\
     py_truthy (dict_get d (lit "message") JNull) = true /\
     c MODEL_NAME sys temperature [dict_get d (lit "message") JNull] = Ok text /\
     r = ok_response text)
  /\ (status r = 400%Z <->
      exists c d,
        client = Some c /\ request_json = Ok (JDict d) /\
        py_truthy (dict_get d (lit "message") JNull) = false)
  /\ (status r = 200%Z \/ status r = 400%Z \/ status r = 500%Z).
Proof.
  intro Hchat.
  destruct (chat_cases client sys request_json) as
    [ [Hcl H]
    | [ (c & e & Hcl & Hr & H)
      | [ (c & v & Hcl & Hr & Hmap & H)
        | [ (c & d & Hcl & Hr & Hf & H)
          | [ (c & d & text & Hcl & Hr & Ht & Hs & H)
            | (c & d & e & Hcl & Hr & Ht & Hs & H) ] ] ] ] ];
    rewrite H in Hchat; apply (f_equal snd) in Hchat; cbn [snd] in Hchat;
    injection Hchat as Hres; subst r;
    cbn [status ok_response error_response]; (split; [|split; [|auto]]).
  - split; [discriminate|]. intros (c & _ & _ & Hc & _). congruence.
  - split; [discriminate|]. intros (c & _ & Hc & _). congruence.
  - split; [discriminate|]. intros (_ & d & _ & _ & Hd & _). congruence.
  - split; [discriminate|]. intros (_ & d & _ & Hd & _). congruence.
  - split; [discriminate|]. intros (_ & d & _ & _ & Hd & _).
    rewrite Hr in Hd. injection Hd as ->. discriminate Hmap.
  - split; [discriminate|]. intros (_ & d & _ & Hd & _).
    rewrite Hr in Hd. injection Hd as ->. discriminate Hmap.
  - split; [discriminate|]. intros (_ & d' & _ & _ & Hd & Ht & _).
    rewrite Hr in Hd. injection Hd as <-. congruence.
  - split; [|reflexivity]. intros _. now exists c, d.
  - split; [|reflexivity]. intros _. now exists c, d, text.
  - split; [discriminate|]. intros (_ & d' & _ & Hd & Hf).
    rewrite Hr in Hd. injection Hd as <-. congruence.
  - split; [discriminate|]. intros (c' & d' & text & Hc & Hd & _ & Hs' & _).
    rewrite Hr in Hd. injection Hd as <-. rewrite Hcl in Hc.
    injection Hc as <-. congruence.
  - split; [discriminate|]. intros (_ & d' & _ & Hd & Hf).
    rewrite Hr in Hd. injection Hd as <-. congruence.
Qed.

(** ** What the context depends on *)

Lemma filter_permutation {A} (f : A -> bool) (l l' : list A) :
  Permutation l l' -> Permutation (filter f l) (filter f l').
Proof.
  induction 1 as [| x l l' _ IH | x y l | l l' l'' _ IH1 _ IH2]; simpl.
  - constructor.
  - destruct (f x); [now constructor | exact IH].
  - destruct (f x), (f y); try reflexivity. apply perm_swap.
  - now transitivity (filter f l').
Qed.

Lemma sorted_permutation (l l' : list pystr) :
  Permutation l l' -> sorted l = sorted l'.
Proof.
  intro H. apply sorted_unique; try apply sorted_sorted.
  rewrite (sorted_perm l), (sorted_perm l'). exact H.
Qed.

Lemma file_events_skipped {ucd : unicode_db} (fs : filesystem) (paths : list pystr) :
  flat_map (file_events fs) paths
  = flat_map (file_events fs) (filter (fun p => negb (skipped p)) paths).
Proof.
  induction paths as [| p paths IH]; [reflexivity|].
  cbn [flat_map filter]. rewrite IH.
  destruct (skipped p) eqn:Hs; cbn [negb]; [|reflexivity].
  unfold file_events, load_context_body. now rewrite Hs.
Qed.

Section ContextFacts.
Context {ucd : unicode_db}.

(** X6. When the path of the working directory has no glob
    metacharacter, what the loader prints and returns depends on the
    working directory, on the names it lists and on the content of the
    discovered files only: two file systems that agree on these give the
    same log and the same context, whatever else differs (files that are
    hidden, that are skipped, that do not end in [.json], or that lie
    elsewhere). *)
Theorem load_context_frame (fs fs' : filesystem) :
  has_magic (cwd fs) = false ->
  cwd fs = cwd fs' ->
  listing fs = listing fs' ->
  (forall p, In p (discover fs) -> content fs p = content fs' p) ->
  load_context fs = load_context fs'.
Proof.
  intros Hplain Hc Hl Hd.
  assert (Hp : json_paths fs' = json_paths fs)
    by (unfold json_paths, glob_json; now rewrite <- Hc, Hplain, Hl).
  unfold load_context. rewrite Hp, <- Hc.
  rewrite (for_each_ext fs fs'); [reflexivity|].
  intros p Hin. destruct (skipped p) eqn:Hs; [now left | right].
  apply Hd. unfold discover. apply filter_In. now rewrite Hs.
Qed.

(** X7. The order in which the operating system lists the entries of the
    directory has no effect: the paths are sorted before the loop, so two
    listings with the same entries give the same log and the same
    context.  This holds for every working directory: where its path is
    itself a glob pattern, the same is true of the order in which the
    matches of the pattern come. *)
Theorem load_context_listing_order (fs fs' : filesystem) :
  cwd fs = cwd fs' ->
  Permutation (listing fs) (listing fs') ->
  (has_magic (cwd fs) = true ->
   forall pattern,
     Permutation (glob_magic fs pattern) (glob_magic fs' pattern)) ->
  (forall p, content fs p = content fs' p) ->
  load_context fs = load_context fs'.
Proof.
  intros Hc Hl Hg Hd.
  assert (Hp : json_paths fs' = json_paths fs).
  { unfold json_paths, glob_json. rewrite <- Hc. apply sorted_permutation.
    destruct (has_magic (cwd fs)) eqn:Hm.
    - symmetry. now apply Hg.
    - apply Permutation_map, filter_permutation. now symmetry. }
  unfold load_context. rewrite Hp, <- Hc.
  rewrite (for_each_ext fs fs'); [reflexivity|].
  intros p _. right. apply Hd.
Qed.

(** X8. The log of the loader begins with the line that names the
    directory and ends with the line [Loaded n JSON context blocks.],
    where [n] is the number of recognized files among the discovered
    ones, those whose rendering is the empty string counted too; what
    is printed in between comes from the discovered files, in order. *)
Theorem load_context_log (fs : filesystem) :
  fst (load_context fs)
  = Printed (lit "Scanning directory for JSON files: " ++ cwd fs)
    :: flat_map (file_events fs) (discover fs)
    ++ [Printed (lit "Loaded " ++
                 str_of_Z (Z.of_nat
                             (length (filter (recognized fs) (discover fs))))
                 ++ lit " JSON context blocks.")].
Proof.
  rewrite load_context_eq. cbn [fst].
  rewrite flat_map_blocks, length_map, file_events_skipped.
  reflexivity.
Qed.

(** X9. A working directory whose own path has no glob metacharacter and
    contains [package] or [lock] yields nothing: every joined path fails
    the test of the loop, no file is discovered, and the context is the
    empty string whatever the files hold. *)
Theorem load_context_in_skipped_directory (fs : filesystem) :
  has_magic (cwd fs) = false ->
  skipped (cwd fs) = true ->
  Forall (fun name => startswith (lit "/") name = false) (listing fs) ->
  discover fs = [] /\ snd (load_context fs) = Ok [].
Proof.
  intros Hplain Hs Hn.
  assert (Hd : discover fs = []).
  { destruct (discover fs) as [| p l] eqn:E; [reflexivity|]. exfalso.
    assert (Hin : In p (discover fs)) by (rewrite E; now left).
    apply (discover_In fs p Hplain) in Hin as (name & H1 & _ & _ & -> & Hk).
    rewrite Forall_forall in Hn. specialize (Hn name H1).
    unfold path_join in Hk. rewrite Hn in Hk.
    destruct (cwd fs) as [| x dir] eqn:Ec; [discriminate Hs|].
    assert (Hpre : forall post, skipped ((x :: dir) ++ post) = true).
    { intro post. unfold skipped in *. apply orb_true_iff in Hs.
      apply orb_true_iff. destruct Hs as [H | H]; [left | right];
        now apply contains_app_l. }
    destruct (endswith (lit "/") (x :: dir)); rewrite Hpre in Hk;
      discriminate Hk. }
  split; [exact Hd|].
  rewrite load_context_eq. cbn [snd]. rewrite flat_map_blocks.
  fold (discover fs). now rewrite Hd.
Qed.

End ContextFacts.

(** ** Names and paths *)

Lemma insert_app (pre x : pystr) (l : list pystr) :
  insert (pre ++ x) (map (app pre) l) = map (app pre) (insert x l).
Proof.
  induction l as [| y l IH]; [reflexivity|].
  cbn [map insert]. rewrite str_leb_app.
  destruct (str_leb x y); [reflexivity|]. cbn [map]. now rewrite IH.
Qed.

Lemma sorted_app (pre : pystr) (l : list pystr) :
  sorted (map (app pre) l) = map (app pre) (sorted l).
Proof.
  induction l as [| x l IH]; [reflexivity|].
  cbn [map sorted fold_right]. fold (sorted (map (app pre) l)).
  fold (sorted l). now rewrite IH, insert_app.
Qed.

(** X10. When the path of the working directory has no glob
    metacharacter, the paths of the loop are in the order of the names:
    sorting the joined paths is sorting the names and joining each to the
    directory, so the blocks of the context follow the file names. *)
Theorem json_paths_by_name (fs : filesystem) :
  has_magic (cwd fs) = false ->
  Forall (fun name => startswith (lit "/") name = false) (listing fs) ->
  json_paths fs
  = map (path_join (cwd fs)) (sorted (filter json_name (listing fs))).
Proof.
  intros Hplain Hn. unfold json_paths, glob_json. rewrite Hplain.
  fold json_name.
  destruct (path_join_prefix (cwd fs)) as (pre & Hj & _).
  assert (Hmap : forall l,
             Forall (fun name => startswith (lit "/") name = false) l ->
             map (path_join (cwd fs)) l = map (app pre) l).
  { intros l Hl. apply map_ext_in. intros name Hin.
    rewrite Forall_forall in Hl. now apply Hj, Hl. }
  assert (Hf : Forall (fun name => startswith (lit "/") name = false)
                 (filter json_name (listing fs))).
  { apply Forall_forall. intros name Hin. apply filter_In in Hin as [Hin _].
    rewrite Forall_forall in Hn. now apply Hn. }
  rewrite (Hmap _ Hf), sorted_app. symmetry. apply Hmap.
  eapply Permutation_Forall; [symmetry; apply sorted_perm | exact Hf].
Qed.

(** X11. Joining a name to a directory and taking the base name gives
    the name back, for every directory and every name that has no
    separator: the header of a block shows the name of the entry as the
    directory lists it. *)
Theorem basename_path_join (dir name : pystr) :
  existsb (N.eqb 47) name = false ->
  basename (path_join dir name) = name.
Proof.
  intro H. destruct (path_join_prefix dir) as (pre & Hj & Hb).
  rewrite Hj; [now apply Hb|].
  destruct name as [| c name]; [reflexivity|].
  cbn [existsb] in H. apply orb_false_iff in H as [Hc _].
  change (startswith (lit "/") (c :: name)) with ((47 =? c) && true).
  now rewrite Hc.
Qed.

(** ** The renderers on every root *)

Section RendererFacts.
Context {ucd : unicode_db}.

Lemma fold_left_keys (keys : list pystr) (parts : list pystr) :
  fold_left (fun parts entry =>
               match entry with
               | JDict d => parts ++ [interview_part d]
               | _ => parts
               end) (map JStr keys) parts
  = parts.
Proof.
  revert parts. induction keys as [| k keys IH]; intro parts; [reflexivity|].
  cbn [map fold_left]. apply IH.
Qed.

Lemma load_and_parse_json_outcome (fs : filesystem) (file_path : pystr) :
  (exists rest,
      load_and_parse_json fs file_path
      = ([], Ok (interview_header file_path ++ rest)))
  \/ (exists e,
        load_and_parse_json fs file_path
        = ([error_reading file_path e], Ok [])).
Proof.
  unfold load_and_parse_json, read_json, lift, bind, try_except, ret, print,
    error_reading, interview_header.
  destruct (content fs file_path) as [data | e]; [|right; now exists e].
  destruct data; cbn [py_iter];
    first [ right; eexists; reflexivity
          | left; rewrite interview_loop; cbn [app]; rewrite join_cons;
            eexists; reflexivity ].
Qed.

Lemma load_survey_json_outcome (fs : filesystem) (file_path : pystr) :
  (exists rest,
      load_survey_json fs file_path
      = ([], Ok (survey_header file_path ++ rest)))
  \/ (exists e,
        load_survey_json fs file_path
        = ([error_reading file_path e], Ok [])).
Proof.
  unfold load_survey_json, read_json, lift, bind, try_except, ret, print,
    error_reading, survey_header.
  destruct (content fs file_path) as [data | e]; [|right; now exists e].
  destruct data; cbn [py_in]; unfold has_key;
    repeat (cbn [py_getitem py_items];
            match goal with
            | |- context [lookup ?k ?d] => destruct (lookup k d) as [[]|]
            | |- context [contains ?a ?b] => destruct (contains a b)
            | |- context [existsb ?f ?l] => destruct (existsb f l)
            end);
    cbn [py_getitem py_items];
    first [ right; eexists; reflexivity
          | left; rewrite ?summary_loop, ?insight_loop, <- ?app_assoc;
            cbn [app]; rewrite join_cons; eexists; reflexivity ].
Qed.

(** X12. Each of the two renderers, on every path and whatever the file
    holds, ends in one of two ways: it prints nothing and returns a text
    that begins with the header line of the file, or it prints one line
    [Error reading <path>: <message>] and returns the empty string.  So a
    renderer returns the empty string exactly when it logged an error. *)
Theorem renderers_header_or_error (fs : filesystem) (file_path : pystr) :
  ((exists rest,
       load_and_parse_json fs file_path
       = ([], Ok (interview_header file_path ++ rest)))
   \/ (exists e,
         load_and_parse_json fs file_path
         = ([error_reading file_path e], Ok [])))
  /\ ((exists rest,
         load_survey_json fs file_path
         = ([], Ok (survey_header file_path ++ rest)))
      \/ (exists e,
            load_survey_json fs file_path
            = ([error_reading file_path e], Ok [])))
  /\ (text_of (load_and_parse_json fs file_path) = [] <->
      fst (load_and_parse_json fs file_path) <> [])
  /\ (text_of (load_survey_json fs file_path) = [] <->
      fst (load_survey_json fs file_path) <> []).
Proof.
  pose proof (load_and_parse_json_outcome fs file_path) as Hi.
  pose proof (load_survey_json_outcome fs file_path) as Hs.
  split; [exact Hi|]. split; [exact Hs|]. split.
  - destruct Hi as [(rest & ->) | (e & ->)]; unfold text_of; cbn [fst snd].
    + split; [discriminate | intro H; now contradiction H].
    + split; [discriminate | reflexivity].
  - destruct Hs as [(rest & ->) | (e & ->)]; unfold text_of; cbn [fst snd].
    + split; [discriminate | intro H; now contradiction H].
    + split; [discriminate | reflexivity].
Qed.

(** X13. The interview renderer on a file that is not a sequence.  When
    the file does not load, or its root is a number, a boolean or null,
    the renderer returns the empty string and prints the error (for a
    scalar root the [TypeError] of the loop); when the root is a mapping
    or a string, the loop runs over keys or characters, none of which is
    a mapping, and the block is the header alone. *)
Theorem load_and_parse_json_not_a_sequence (fs : filesystem)
    (file_path : pystr) :
  (forall e,
      content fs file_path = Raise e ->
      load_and_parse_json fs file_path
      = ([error_reading file_path e], Ok []))
  /\ (forall v,
        content fs file_path = Ok v -> is_scalar v = true ->
        load_and_parse_json fs file_path
        = ([error_reading file_path
              (TypeError (lit "'" ++ type_name v ++
                          lit "' object is not iterable"))],
           Ok []))
  /\ (forall d,
        content fs file_path = Ok (JDict d) ->
        load_and_parse_json fs file_path
        = ([], Ok (interview_header file_path)))
  /\ (forall s,
        content fs file_path = Ok (JStr s) ->
        load_and_parse_json fs file_path
        = ([], Ok (interview_header file_path))).
Proof.
  unfold load_and_parse_json, read_json, lift, bind, try_except, ret, print,
    error_reading, interview_header.
  repeat split.
  - intros e H. now rewrite H.
  - intros v H Hv. rewrite H. destruct v; try discriminate Hv; reflexivity.
  - intros d H. rewrite H. cbn [py_iter app].
    rewrite <- (map_map fst JStr d), fold_left_keys. reflexivity.
  - intros s H. rewrite H. cbn [py_iter app].
    rewrite <- (map_map (fun c => [c]) JStr s), fold_left_keys. reflexivity.
Qed.

End RendererFacts.

(** ** JSON strings in the dump *)






(** ** The loop, one file at a time *)

Section LoopFacts.
Context {ucd : unicode_db}.

Lemma file_events_short (fs : filesystem) (path : pystr) :
  (length (file_events fs path) <= 1)%nat.
Proof.
  unfold file_events, load_context_body.
  destruct (skipped path); [cbn; lia|].
  unfold read_json, lift, bind, try_except, ret, print.
  destruct (content fs path) as [data | e]; [|cbn; lia].
  destruct (load_and_parse_json_outcome fs path) as [(r1 & Hi) | (e1 & Hi)];
    destruct (load_survey_json_outcome fs path) as [(r2 & Hs) | (e2 & Hs)];
    destruct data; cbn [is_survey]; rewrite ?Hi; try (cbn; lia);
    destruct (_ || _); rewrite ?Hs; cbn; lia.
Qed.

(** X15. One turn of the loop keeps the blocks collected so far as they
    are and appends at most one block after them; it prints at most one
    line; and neither the block nor the line depends on what was
    collected before.  The loop never raises. *)
Theorem load_context_body_appends_one (fs : filesystem) (path : pystr)
    (parts : list pystr) :
  load_context_body fs path parts
  = (file_events fs path, Ok (parts ++ file_blocks fs path))
  /\ (length (file_blocks fs path) <= 1)%nat
  /\ (length (file_events fs path) <= 1)%nat.
Proof.
  split; [exact (load_context_body_appends fs path parts)|]. split.
  - rewrite file_blocks_eq. destruct (_ && _); cbn; lia.
  - apply file_events_short.
Qed.

Lemma interviews_only_blocks (fs : filesystem) (paths : list pystr) :
  (forall p, In p paths -> skipped p = false ->
             exists records, content fs p = Ok (JList records)) ->
  flat_map (file_events fs) paths = [] /\
  flat_map (file_blocks fs) paths
  = map (fun p => join nl (interview_lines (basename p) (records_of fs p)))
        (filter (fun p => negb (skipped p)) paths).
Proof.
  induction paths as [| p paths IH]; intro H; [now split|].
  destruct IH as [IHe IHb]; [intros q Hq; apply H; now right|].
  cbn [flat_map filter]. rewrite IHe, IHb.
  destruct (skipped p) eqn:Hs; cbn [negb].
  - unfold file_events. rewrite file_blocks_eq.
    unfold load_context_body. rewrite Hs. now split.
  - destruct (H p (or_introl eq_refl) Hs) as (records & Hc).
    pose proof (load_and_parse_json_parts fs p records Hc) as Hr.
    rewrite interview_parts_lines in Hr.
    split.
    + unfold file_events, load_context_body, read_json, lift, bind,
        try_except. rewrite Hs, Hc, Hr. reflexivity.
    + rewrite file_blocks_eq, Hs. unfold recognized, rendering, records_of.
      rewrite Hc, Hr. cbn [negb andb filter map text_of snd].
      now rewrite Hc.
Qed.

(** X16. In a directory whose discovered files are all sequences, the
    loader prints the line of the directory and the count, which is the
    number of discovered files, and the context is one interview block
    per file, in the order of discovery, the blocks one blank line
    apart; each block holds the records of its file in their order. *)
Theorem load_context_interviews_only (fs : filesystem) :
  (forall p, In p (discover fs) ->
             exists records, content fs p = Ok (JList records)) ->
  load_context fs
  = ([Printed (lit "Scanning directory for JSON files: " ++ cwd fs);
      Printed (lit "Loaded " ++ str_of_Z (Z.of_nat (length (discover fs)))
               ++ lit " JSON context blocks.")],
     Ok (join (nl ++ nl)
           (map (fun p => join nl (interview_lines (basename p)
                                     (records_of fs p)))
                (discover fs)))).
Proof.
  intro H.
  destruct (interviews_only_blocks fs (json_paths fs)) as [He Hb].
  { intros p Hin Hs. apply H. unfold discover. apply filter_In.
    now rewrite Hs. }
  rewrite load_context_eq, He, Hb. fold (discover fs).
  now rewrite length_map.
Qed.

End LoopFacts.

(** ** The further properties at concrete inputs *)

Lemma import_module_outcome_witness :
  exists line client,
    (client = None <->
     key_missing env_with_key = true \/ constructor_fails env_with_key = true) /\
    @import_module ascii_db setup_ok env_with_key example_directory
    = (Printed line :: fst (@load_context ascii_db example_directory),
       Ok {| global_client := client;
             global_context := interview1_block ++ nl ++ nl ++ survey_block;
             global_system_instruction :=
               SYSTEM_INSTRUCTION
                 (interview1_block ++ nl ++ nl ++ survey_block) |}).
Proof.
  exact (@import_module_outcome ascii_db setup_ok env_with_key
           example_directory).
Defined.

Lemma chat_route_without_client_witness :
  exists log g,
    @initialise_globals ascii_db env_without_key example_directory = (log, Ok g) /\
    chat_route g chat_request = ([], Ok (error_response config_error 500)).
Proof.
  apply (@chat_route_without_client ascii_db env_without_key
           example_directory chat_request).
  left. reflexivity.
Defined.

Lemma chat_route_sends_context_witness :
  exists log g rest,
    @initialise_globals ascii_db env_with_key example_directory = (log, Ok g) /\
    fst (chat_route g chat_request)
    = Generated (lit "gemini-1.5-flash")
        (SYSTEM_INSTRUCTION
           (join (nl ++ nl)
              (map (rendering (ucd := ascii_db) example_directory)
                 (filter (recognized example_directory)
                    (discover example_directory)))))
        {| float_repr := lit "0.2" |} [JStr (lit "What sells?")]
      :: rest /\
    existsb is_call rest = false.
Proof.
  apply (@chat_route_sends_context ascii_db env_with_key example_directory
           (lit "k-123") echo_client
           [(lit "message", JStr (lit "What sells?"))]
           (JStr (lit "What sells?"))).
  - reflexivity.
  - discriminate.
  - reflexivity.
  - reflexivity.
  - reflexivity.
Defined.

Lemma chat_status_meaning_witness :
  status (ok_response (Some (lit "Serve filter coffee."))) = 200%Z \/
  status (ok_response (Some (lit "Serve filter coffee."))) = 400%Z \/
  status (ok_response (Some (lit "Serve filter coffee."))) = 500%Z.
Proof.
  apply (chat_status_meaning (Some echo_client) [] chat_request
           [Generated MODEL_NAME [] temperature [JStr (lit "What sells?")]]
           (ok_response (Some (lit "Serve filter coffee.")))).
  reflexivity.
Defined.

Lemma load_context_frame_witness :
  @load_context ascii_db example_directory
  = @load_context ascii_db
      (with_content example_directory (lit "/srv/app/notes.txt")
         (Ok (JList []))).
Proof.
  apply (@load_context_frame ascii_db).
  - reflexivity.
  - reflexivity.
  - reflexivity.
  - intros p Hin. vm_compute in Hin.
    destruct Hin as [<- | [<- | []]]; reflexivity.
Defined.

Lemma load_context_listing_order_witness :
  @load_context ascii_db example_directory
  = @load_context ascii_db (listed_backwards example_directory).
Proof.
  apply (@load_context_listing_order ascii_db).
  - reflexivity.
  - apply Permutation_rev.
  - discriminate.
  - reflexivity.
Defined.

Lemma load_context_in_skipped_directory_witness :
  discover (directory (lit "/srv/clock") example_files) = [] /\
  snd (@load_context ascii_db (directory (lit "/srv/clock") example_files))
  = Ok [].
Proof.
  apply (@load_context_in_skipped_directory ascii_db).
  - reflexivity.
  - reflexivity.
  - repeat constructor.
Defined.

Lemma json_paths_by_name_witness :
  json_paths example_directory
  = map (path_join (lit "/srv/app"))
        (sorted (filter json_name (listing example_directory))).
Proof.
  apply (json_paths_by_name example_directory).
  - reflexivity.
  - repeat constructor.
Defined.

Lemma basename_path_join_witness :
  basename (path_join (lit "/srv/app") (lit "survey.json")) = lit "survey.json".
Proof.
  apply (basename_path_join (lit "/srv/app") (lit "survey.json")).
  reflexivity.
Defined.

Lemma load_context_interviews_only_witness :
  @load_context ascii_db interview_directory
  = ([Printed (lit "Scanning directory for JSON files: /srv/app");
      Printed (lit "Loaded 1 JSON context blocks.")],
     Ok interview1_block).
Proof.
  apply (@load_context_interviews_only ascii_db interview_directory).
  intros p Hin. vm_compute in Hin. destruct Hin as [<- | []].
  eexists. reflexivity.
Defined.
